(** * Probabilistic Earley parser (parse.py): model and properties

    The Python module is embedded function by function.  Python [int] is [Z],
    [float] is the kernel's binary64 [float], [str] is [string], a list or a
    tuple is a [list], and the [defaultdict] of the grammar is a [gmap].
    A computation that can raise returns a [result]; the exception classes
    that the module can raise are the constructors of [exn]. *)

From Stdlib Require Import ZArith List String Ascii Floats Lia.
From stdpp Require Import base option list gmap strings.

Set Warnings "-register-all".

Local Open Scope string_scope.
Local Open Scope Z_scope.

(** ** Exceptions and results *)

Inductive exn : Type :=
  | NameError (name : string)
  | TypeError
  | IndexError
  | AssertionError
  | ValueError
  | FileNotFoundError.

(** [OutOfFuel] is not a Python outcome: it marks a loop of the model that
    used up the step budget it was given. *)
Inductive result (A : Type) : Type :=
  | Ok (a : A)
  | Raise (e : exn)
  | OutOfFuel.

Arguments Ok {A} a.
Arguments Raise {A} e.
Arguments OutOfFuel {A}.

#[global] Instance result_ret : MRet result := fun _ a => Ok a.
#[global] Instance result_bind : MBind result := fun _ _ f m =>
  match m with
  | Ok a => f a
  | Raise e => Raise e
  | OutOfFuel => OutOfFuel
  end.
#[global] Instance result_fmap : FMap result := fun _ _ f m =>
  match m with
  | Ok a => Ok (f a)
  | Raise e => Raise e
  | OutOfFuel => OutOfFuel
  end.

(** ** Python sequences *)

(** [len(l)] *)
Definition len {A} (l : list A) : Z := Z.of_nat (length l).

(** The position that Python's [l[i]] reads: a negative index counts from the
    end, anything outside the list is an [IndexError]. *)
Definition norm_index {A} (l : list A) (i : Z) : option nat :=
  let j := if i <? 0 then i + len l else i in
  if (0 <=? j) && (j <? len l) then Some (Z.to_nat j) else None.

(** [l[i]] *)
Definition getitem {A} (l : list A) (i : Z) : result A :=
  match norm_index l i with
  | Some n =>
      match l !! n with
      | Some x => Ok x
      | None => Raise IndexError
      end
  | None => Raise IndexError
  end.

(** [l[i] = x] on a list held by reference: the list with that slot replaced. *)
Definition setitem {A} (l : list A) (i : Z) (x : A) : result (list A) :=
  match norm_index l i with
  | Some n => Ok (<[n := x]> l)
  | None => Raise IndexError
  end.

(** Python's [==] on floats is the IEEE comparison. *)
Definition float_eqb (x y : float) : bool := PrimFloat.eqb x y.

Fixpoint list_eqb {A} (eqb : A -> A -> bool) (l1 l2 : list A) : bool :=
  match l1, l2 with
  | [], [] => true
  | x :: l1, y :: l2 => eqb x y && list_eqb eqb l1 l2
  | _, _ => false
  end.

(** ** Rule *)

Module Rule.
(** [@dataclass(frozen=True) class Rule]: lhs, rhs, weight. *)
Record t : Type := mk { lhs : string; rhs : list string; weight : float }.

(** The [__eq__] that the dataclass decorator generates: the fields are
    compared with [==]; a rule whose weight is nan is equal to no rule. *)
Definition eqb (r1 r2 : t) : bool :=
  String.eqb (lhs r1) (lhs r2)
  && list_eqb String.eqb (rhs r1) (rhs r2)
  && float_eqb (weight r1) (weight r2).
End Rule.

(** ** ItemKey *)

Module ItemKey.
(** [@dataclass(frozen=True) class ItemKey]: the identity of an item. *)
Record t : Type := mk { rule : Rule.t; dot_position : Z; start_position : Z }.

Definition eqb (k1 k2 : t) : bool :=
  Rule.eqb (rule k1) (rule k2)
  && (dot_position k1 =? dot_position k2)
  && (start_position k1 =? start_position k2).
End ItemKey.

(** ** Item *)

Module Item.
(** [@dataclass() class Item].  [backpointers] is [Optional[List[Item]]]:
    [None] is Python's [None], [Some l] a list object. *)
Inductive t : Type := mk {
  rule : Rule.t;
  dot_position : Z;
  start_position : Z;
  weight : float;
  backpointers : option (list t)
}.

(** The generated [__init__(self, rule, dot_position, start_position,
    weight, backpointers=None)].  [weight] has no default: a call that does
    not pass it ([None] here) is a [TypeError].  [backpointers] not passed
    is the default [None]. *)
Definition __init__ (rule : Rule.t) (dot_position start_position : Z)
    (weight : option float) (backpointers : option (option (list t)))
    : result t :=
  match weight with
  | None => Raise TypeError
  | Some w =>
      Ok (mk rule dot_position start_position w
            (default None backpointers))
  end.

(** [next_symbol]: the assertion, then the symbol after the dot or [None]. *)
Definition next_symbol (self : t) : result (option string) :=
  if (0 <=? dot_position self)
     && (dot_position self <=? len (Rule.rhs (rule self)))
  then
    if dot_position self =? len (Rule.rhs (rule self))
    then Ok None
    else Some <$> getitem (Rule.rhs (rule self)) (dot_position self)
  else Raise AssertionError.

Definition advance (self : t) (dot_position : Z) (weight : float)
    (backpointers : list t) : result t :=
  ns ← next_symbol self;
  match ns with
  | None => Raise IndexError
  | Some _ =>
      __init__ (rule self) dot_position (start_position self)
        (Some weight) (Some (Some backpointers))
  end.

Definition get_key (self : t) : ItemKey.t :=
  ItemKey.mk (rule self) (dot_position self) (start_position self).
End Item.

(** ** Agenda *)

Module Agenda.
(** [_items]: every item ever appended; [_index]: the dict from key to the
    item last stored under it, in insertion order; [_next]: index of the
    first item not yet popped. *)
Record t : Type := mk {
  _items : list Item.t;
  _index : list (ItemKey.t * Item.t);
  _next : Z
}.

Definition __init__ : t := mk [] [] 0.

(** [self._index.get(key)] *)
Fixpoint dict_get (d : list (ItemKey.t * Item.t)) (key : ItemKey.t)
    : option Item.t :=
  match d with
  | [] => None
  | (k, v) :: d' => if ItemKey.eqb k key then Some v else dict_get d' key
  end.

(** [self._index[key] = item]: an equal key keeps its slot and takes the
    new value, a new key goes last. *)
Fixpoint dict_set (d : list (ItemKey.t * Item.t)) (key : ItemKey.t)
    (item : Item.t) : list (ItemKey.t * Item.t) :=
  match d with
  | [] => [(key, item)]
  | (k, v) :: d' =>
      if ItemKey.eqb k key then (k, item) :: d'
      else (k, v) :: dict_set d' key item
  end.

Definition __len__ (self : t) : Z := len (_items self) - _next self.

(** [len(self)]: the builtin rejects a negative [__len__]. *)
Definition py_len (self : t) : result Z :=
  if __len__ self <? 0 then Raise ValueError else Ok (__len__ self).

Definition push (item : Item.t) (self : t) : t :=
  let key := Item.get_key item in
  match dict_get (_index self) key with
  | None =>
      mk (_items self ++ [item]) (dict_set (_index self) key item)
         (_next self)
  | Some existing_item =>
      if PrimFloat.ltb (Item.weight item) (Item.weight existing_item)
      then mk (_items self ++ [item]) (dict_set (_index self) key item)
              (_next self)
      else self
  end.

Definition pop (self : t) : result (Item.t * t) :=
  n ← py_len self;
  if n =? 0 then Raise IndexError
  else
    item ← getitem (_items self) (_next self);
    Ok (item, mk (_items self) (_index self) (_next self + 1)).

Definition all (self : t) : list Item.t := _items self.
End Agenda.

(** ** Strings *)

(** The text of a file is taken after decoding and newline translation, and
    the string methods are those of ASCII text. *)

(** [str.isspace] on one ASCII character. *)
Definition is_space (c : ascii) : bool :=
  let n := nat_of_ascii c in
  ((9 <=? n) && (n <=? 13) || (28 <=? n) && (n <=? 32))%nat.

(** [s.split(sep)] for a one-character separator. *)
Fixpoint split_char (sep : ascii) (s : string) : list string :=
  match s with
  | EmptyString => [EmptyString]
  | String c s' =>
      if Ascii.eqb c sep then EmptyString :: split_char sep s'
      else
        match split_char sep s' with
        | w :: ws => String c w :: ws
        | [] => [String c EmptyString]
        end
  end.

(** [s.rstrip()] *)
Fixpoint rstrip (s : string) : string :=
  match s with
  | EmptyString => EmptyString
  | String c s' =>
      match rstrip s' with
      | EmptyString => if is_space c then EmptyString else String c EmptyString
      | r => String c r
      end
  end.

(** [s.lstrip()] *)
Fixpoint lstrip (s : string) : string :=
  match s with
  | EmptyString => EmptyString
  | String c s' => if is_space c then lstrip s' else s
  end.

(** [s.strip()] *)
Definition strip (s : string) : string := rstrip (lstrip s).

(** [s.split()]: the maximal runs of non-space characters.  [cur] is the
    run being read. *)
Fixpoint split_ws_aux (cur : option string) (s : string) : list string :=
  match s with
  | EmptyString =>
      match cur with
      | Some w => [w]
      | None => []
      end
  | String c s' =>
      if is_space c then
        match cur with
        | Some w => w :: split_ws_aux None s'
        | None => split_ws_aux None s'
        end
      else
        split_ws_aux (Some (default EmptyString cur ++ String c EmptyString)) s'
  end.

Definition split_ws (s : string) : list string := split_ws_aux None s.

(** The lines of a text file, each with its newline: what iterating over the
    file, or [readlines], yields. *)
Fixpoint lines_aux (cur : string) (s : string) : list string :=
  match s with
  | EmptyString => if String.eqb cur EmptyString then [] else [cur]
  | String c s' =>
      if Ascii.eqb c "010"%char
      then (cur ++ String c EmptyString) :: lines_aux EmptyString s'
      else lines_aux (cur ++ String c EmptyString) s'
  end.

Definition readlines (content : string) : list string :=
  lines_aux EmptyString content.

(** ** Names bound when the module runs *)

(** What the module binds at top level: its imports (lines 8 to 16), [log],
    the functions and classes it defines, and [doctest] from the main guard. *)
Definition module_globals : list string :=
  [ "annotations"; "argparse"; "logging"; "math"; "tqdm"; "dataclass"; "Path";
    "Counter"; "CounterType"; "Iterable"; "List"; "Optional"; "Dict"; "Tuple";
    "log"; "parse_args"; "EarleyChart"; "Agenda"; "Grammar"; "Rule";
    "ItemKey"; "Item"; "format_tree"; "main"; "doctest";
    "__name__"; "__doc__"; "__file__"; "__package__"; "__loader__";
    "__spec__"; "__builtins__" ].

(** The functions, types and constants of the [builtins] module. *)
Definition builtins : list string :=
  [ "abs"; "aiter"; "all"; "anext"; "any"; "ascii"; "bin"; "bool";
    "breakpoint"; "bytearray"; "bytes"; "callable"; "chr"; "classmethod";
    "compile"; "complex"; "delattr"; "dict"; "dir"; "divmod"; "enumerate";
    "eval"; "exec"; "filter"; "float"; "format"; "frozenset"; "getattr";
    "globals"; "hasattr"; "hash"; "help"; "hex"; "id"; "input"; "int";
    "isinstance"; "issubclass"; "iter"; "len"; "list"; "locals"; "map"; "max";
    "memoryview"; "min"; "next"; "object"; "oct"; "open"; "ord"; "pow";
    "print"; "property"; "range"; "repr"; "reversed"; "round"; "set";
    "setattr"; "slice"; "sorted"; "staticmethod"; "str"; "sum"; "super";
    "tuple"; "type"; "vars"; "zip"; "__import__";
    "True"; "False"; "None"; "Ellipsis"; "NotImplemented"; "__debug__";
    "copyright"; "credits"; "license"; "exit"; "quit";
    "BaseException"; "Exception"; "ArithmeticError"; "AssertionError";
    "AttributeError"; "BufferError"; "EOFError"; "FloatingPointError";
    "GeneratorExit"; "ImportError"; "ModuleNotFoundError"; "IndexError";
    "KeyError"; "KeyboardInterrupt"; "LookupError"; "MemoryError";
    "NameError"; "NotImplementedError"; "OSError"; "OverflowError";
    "RecursionError"; "ReferenceError"; "RuntimeError"; "StopIteration";
    "StopAsyncIteration"; "SyntaxError"; "IndentationError"; "TabError";
    "SystemError"; "SystemExit"; "TypeError"; "UnboundLocalError";
    "UnicodeError"; "UnicodeEncodeError"; "UnicodeDecodeError";
    "UnicodeTranslateError"; "ValueError"; "ZeroDivisionError";
    "EnvironmentError"; "IOError"; "BlockingIOError"; "ChildProcessError";
    "ConnectionError"; "BrokenPipeError"; "ConnectionAbortedError";
    "ConnectionRefusedError"; "ConnectionResetError"; "FileExistsError";
    "FileNotFoundError"; "InterruptedError"; "IsADirectoryError";
    "NotADirectoryError"; "PermissionError"; "ProcessLookupError";
    "TimeoutError"; "Warning"; "UserWarning"; "DeprecationWarning";
    "PendingDeprecationWarning"; "SyntaxWarning"; "RuntimeWarning";
    "FutureWarning"; "ImportWarning"; "UnicodeWarning"; "BytesWarning";
    "ResourceWarning"; "EncodingWarning" ].

(** Reading a global name inside a function body: the module's globals,
    then the builtins, else a [NameError]. *)
Definition load_global (name : string) : result unit :=
  if existsb (String.eqb name) module_globals
     || existsb (String.eqb name) builtins
  then Ok ()
  else Raise (NameError name).

(** ** Grammar *)

Module Grammar.
(** [_expansions] is a [defaultdict(list)]: looking up a missing key
    stores an empty list under it. *)
Record t : Type := mk {
  start_symbol : string;
  _expansions : gmap string (list Rule.t)
}.

(** [self._expansions[lhs]]: the list, and the grammar after the lookup. *)
Definition expansions (lhs : string) (self : t) : list Rule.t * t :=
  match _expansions self !! lhs with
  | Some rules => (rules, self)
  | None => ([], mk (start_symbol self) (<[lhs := []]> (_expansions self)))
  end.

(** [symbol in self._expansions] *)
Definition is_nonterminal (symbol : string) (self : t) : bool :=
  bool_decide (is_Some (_expansions self !! symbol)).

Section Loader.
(** Python's [float(s)] on a string ([None]: the [ValueError] of a text
    that is not a number) and the C library's [log2] on positive finite
    doubles; neither is code of the module. *)
Variable py_float : string -> option float.
Variable libm_log2 : float -> float.

(** [math.log2]: nan gives nan, +inf gives +inf, any other argument that
    is not positive is a [ValueError] (math domain error). *)
Definition math_log2 (x : float) : result float :=
  if PrimFloat.is_nan x then Ok x
  else if PrimFloat.ltb 0%float x
       then Ok (if PrimFloat.is_infinity x then x else libm_log2 x)
       else Raise ValueError.

(** The body of the loop over the lines of a grammar file. *)
Definition add_rule_from_line (line : string) (self : t) : result t :=
  head ← getitem (split_char "#"%char line) 0;
  let line := rstrip head in
  if String.eqb line EmptyString then Ok self
  else
    match split_char "009"%char line with
    | [_prob; lhs; _rhs] =>
        prob ← from_option Ok (Raise ValueError) (py_float _prob);
        let rhs := split_ws _rhs in
        l ← math_log2 prob;
        let weight := PrimFloat.opp l in
        let rule := Rule.mk lhs rhs weight in
        Ok (mk (start_symbol self)
               (<[lhs := (default [] (_expansions self !! lhs) ++ [rule])%list]>
                  (_expansions self)))
    | _ => Raise ValueError
    end.

Fixpoint add_rules_from_lines (lines : list string) (self : t)
    : result t :=
  match lines with
  | [] => Ok self
  | line :: lines' =>
      self' ← add_rule_from_line line self;
      add_rules_from_lines lines' self'
  end.

(** [fs] gives the text of the files that can be opened. *)
Definition add_rules_from_file (fs : string -> option string)
    (file : string) (self : t) : result t :=
  match fs file with
  | None => Raise FileNotFoundError
  | Some content => add_rules_from_lines (readlines content) self
  end.

Fixpoint add_rules_from_files (fs : string -> option string)
    (files : list string) (self : t) : result t :=
  match files with
  | [] => Ok self
  | file :: files' =>
      self' ← add_rules_from_file fs file self;
      add_rules_from_files fs files' self'
  end.

(** [Grammar(start_symbol, *files)].  The attribute assignment of line
    270 cannot raise; line 271 reads the global name [defaultdict]. *)
Definition __init__ (fs : string -> option string)
    (start_symbol : string) (files : list string) : result t :=
  _ ← load_global "defaultdict";
  add_rules_from_files fs files (mk start_symbol ∅).
End Loader.
End Grammar.

(** ** Parse trees *)

(** The tuples that [_build_tree] returns: [(lhs, token)] with a string in
    second place is a [Leaf]; [(lhs, *children)], whose further components
    are tuples again, is a [Node] ([(lhs,)] has no children). *)
Inductive tree : Type :=
  | Node (label : string) (children : list tree)
  | Leaf (label token : string).

(** [' '.join(l)] *)
Fixpoint join_space (l : list string) : string :=
  match l with
  | [] => EmptyString
  | [s] => s
  | s :: l' => s ++ " " ++ join_space l'
  end.

Fixpoint format_tree (t : tree) : string :=
  match t with
  | Leaf label token => "(" ++ label ++ " " ++ token ++ ")"
  | Node label children =>
      "(" ++ label ++ " " ++ join_space (map format_tree children) ++ ")"
  end.

(** The terminal leaves of a tree, left to right. *)
Fixpoint tree_yield (t : tree) : list string :=
  match t with
  | Leaf _ token => [token]
  | Node _ children => concat (map tree_yield children)
  end.

(** ** EarleyChart *)

Module EarleyChart.
(** The chart object.  [progress] and [profile] only feed the progress bar
    and the debug log, which are not modelled. *)
Record t : Type := mk {
  tokens : list string;
  grammar : Grammar.t;
  cols : list Agenda.t;
  found_goal_item : option Item.t
}.

Definition accepted (self : t) : bool :=
  match found_goal_item self with
  | Some _ => true
  | None => false
  end.

Fixpoint _build_tree (tokens : list string) (item : Item.t) : result tree :=
  match item with
  | Item.mk rule _ start_position _ None => Ok (Node (Rule.lhs rule) [])
  | Item.mk rule _ start_position _ (Some []) =>
      token ← getitem tokens start_position;
      Ok (Leaf (Rule.lhs rule) token)
  | Item.mk rule _ _ _ (Some backpointers) =>
      children ←
        (fix build_all (bps : list Item.t) : result (list tree) :=
           match bps with
           | [] => Ok []
           | bp :: bps' =>
               child ← _build_tree tokens bp;
               rest ← build_all bps';
               Ok (child :: rest)
           end) backpointers;
      Ok (Node (Rule.lhs rule) children)
  end.

Definition get_best_parse (self : t) : result (option (tree * float)) :=
  match found_goal_item self with
  | None => Ok None
  | Some goal =>
      parse ← _build_tree (tokens self) goal;
      Ok (Some (parse, Item.weight goal))
  end.

(** [self.cols[position].push(item)]: the agenda at that slot is changed
    in place. *)
Definition push_col (position : Z) (item : Item.t) (self : t) : result t :=
  column ← getitem (cols self) position;
  cols' ← setitem (cols self) position (Agenda.push item column);
  Ok (mk (tokens self) (grammar self) cols' (found_goal_item self)).

Fixpoint predict_rules (rules : list Rule.t) (position : Z) (self : t)
    : result t :=
  match rules with
  | [] => Ok self
  | rule :: rules' =>
      new_item ← Item.__init__ rule 0 position None None;
      self' ← push_col position new_item self;
      predict_rules rules' position self'
  end.

(** The lookup of the expansions goes through the [defaultdict], so the
    grammar of the chart is the one after the lookup. *)
Definition _predict (nonterminal : string) (position : Z) (self : t)
    : result t :=
  let '(rules, grammar') := Grammar.expansions nonterminal (grammar self) in
  predict_rules rules position
    (mk (tokens self) grammar' (cols self) (found_goal_item self)).

(** [token == item.next_symbol()] and [customer.next_symbol() == lhs]:
    a string against a string or [None]. *)
Definition symbol_eqb (s : string) (next : option string) : bool :=
  match next with
  | Some s' => String.eqb s s'
  | None => false
  end.

Definition _scan (item : Item.t) (position : Z) (self : t) : result t :=
  if position <? len (tokens self) then
    token ← getitem (tokens self) position;
    next ← Item.next_symbol item;
    if symbol_eqb token next then
      new_item ← Item.advance item (Item.dot_position item + 1)
                    (Item.weight item) [item];
      push_col (position + 1) new_item self
    else Ok self
  else Ok self.

(** [customer.backpointers + [item]]: [None + list] is a [TypeError]. *)
Definition extend_backpointers (backpointers : option (list Item.t))
    (item : Item.t) : result (list Item.t) :=
  match backpointers with
  | None => Raise TypeError
  | Some l => Ok (l ++ [item])%list
  end.

(** The loop of [_attach] from its [j]-th iteration on.  The [for] walks
    the list object [self.cols[mid]._items] by index while the body may
    append to it (when [mid = position]), so each iteration reads the
    list as it is then.  [fuel] bounds the number of iterations. *)
Fixpoint attach_from (fuel : nat) (j : nat) (item : Item.t)
    (position mid : Z) (self : t) : result t :=
  column ← getitem (cols self) mid;
  match Agenda.all column !! j with
  | None => Ok self
  | Some customer =>
      match fuel with
      | O => OutOfFuel
      | S fuel' =>
          next ← Item.next_symbol customer;
          if symbol_eqb (Rule.lhs (Item.rule item)) next then
            let new_weight :=
              PrimFloat.add (Item.weight customer) (Item.weight item) in
            backpointers ←
              extend_backpointers (Item.backpointers customer) item;
            new_item ← Item.advance customer (Item.dot_position customer + 1)
                          new_weight backpointers;
            self' ← push_col position new_item self;
            attach_from fuel' (S j) item position mid self'
          else attach_from fuel' (S j) item position mid self
      end
  end.

Definition _attach (fuel : nat) (item : Item.t) (position : Z) (self : t)
    : result t :=
  attach_from fuel 0 item position (Item.start_position item) self.

(** The body of the [while] loop of [_run_earley] after the pop. *)
Definition process (fuel : nat) (item : Item.t) (i : Z) (self : t)
    : result t :=
  next ← Item.next_symbol item;
  match next with
  | None =>
      self' ← _attach fuel item i self;
      if String.eqb (Rule.lhs (Item.rule item))
                    (Grammar.start_symbol (grammar self'))
         && (Item.start_position item =? 0)
         && (i =? len (tokens self'))
      then
        match found_goal_item self' with
        | None =>
            Ok (mk (tokens self') (grammar self') (cols self') (Some item))
        | Some goal =>
            if PrimFloat.ltb (Item.weight item) (Item.weight goal)
            then Ok (mk (tokens self') (grammar self') (cols self')
                        (Some item))
            else Ok self'
        end
      else Ok self'
  | Some next =>
      if Grammar.is_nonterminal next (grammar self)
      then _predict next i self
      else _scan item i self
  end.

(** [while column: ...] on column [i]; [fuel] bounds the iterations. *)
Fixpoint drain (fuel : nat) (i : Z) (self : t) : result t :=
  column ← getitem (cols self) i;
  n ← Agenda.py_len column;
  if n =? 0 then Ok self
  else
    match fuel with
    | O => OutOfFuel
    | S fuel' =>
        popped ← Agenda.pop column;
        cols' ← setitem (cols self) i popped.2;
        self' ← process fuel' popped.1 i
                  (mk (tokens self) (grammar self) cols'
                      (found_goal_item self));
        drain fuel' i self'
    end.

(** [for i, column in enumerate(self.cols)]: [n] columns from [i] on. *)
Fixpoint drain_columns (fuel : nat) (n : nat) (i : Z) (self : t)
    : result t :=
  match n with
  | O => Ok self
  | S n' =>
      self' ← drain fuel i self;
      drain_columns fuel n' (i + 1) self'
  end.

Definition _run_earley (fuel : nat) (self : t) : result t :=
  let cols := replicate (Z.to_nat (len (tokens self) + 1)) Agenda.__init__ in
  let self := mk (tokens self) (grammar self) cols (found_goal_item self) in
  self' ← _predict (Grammar.start_symbol (grammar self)) 0 self;
  drain_columns fuel (length (EarleyChart.cols self')) 0 self'.

Definition __init__ (fuel : nat) (tokens : list string)
    (grammar : Grammar.t) : result t :=
  _run_earley fuel (mk tokens grammar [] None).
End EarleyChart.

(** ** main *)

(** A line on standard output: text, or a float printed by [print]. *)
Inductive output : Type :=
  | Text (s : string)
  | Number (w : float).

Section Main.
Variable py_float : string -> option float.
Variable libm_log2 : float -> float.

(** The loop over the sentences: the lines printed, and how it ended. *)
Fixpoint parse_sentences (fuel : nat) (sentences : list string)
    (grammar : Grammar.t) : list output * result unit :=
  match sentences with
  | [] => ([], Ok ())
  | sentence :: rest =>
      let sentence := strip sentence in
      if String.eqb sentence EmptyString then parse_sentences fuel rest grammar
      else
        let tokens := split_ws sentence in
        match
          chart ← EarleyChart.__init__ fuel tokens grammar;
          best ← EarleyChart.get_best_parse chart;
          Ok (chart, best)
        with
        | Ok (chart, best) =>
            let printed :=
              match best with
              | None => [Text "NONE"]
              | Some (parse, weight) =>
                  [Text (format_tree parse); Number weight]
              end in
            let '(later, outcome) :=
              parse_sentences fuel rest (EarleyChart.grammar chart) in
            ((printed ++ later)%list, outcome)
        | Raise e => ([], Raise e)
        | OutOfFuel => ([], OutOfFuel)
        end
  end.

(** [main()] for the command line arguments [grammar], [sentences] and
    [--start_symbol]. *)
Definition main (fs : string -> option string) (fuel : nat)
    (grammar_path sentences_path start_symbol : string)
    : list output * result unit :=
  match Grammar.__init__ py_float libm_log2 fs start_symbol [grammar_path] with
  | Ok grammar =>
      match fs sentences_path with
      | None => ([], Raise FileNotFoundError)
      | Some content => parse_sentences fuel (readlines content) grammar
      end
  | Raise e => ([], Raise e)
  | OutOfFuel => ([], OutOfFuel)
  end.
End Main.

(** ** Predicates of the statements *)

(** The range that the assertion of [next_symbol] checks. *)
Definition in_range (item : Item.t) : Prop :=
  0 <= Item.dot_position item <= len (Rule.rhs (Item.rule item)).

(** Every item ever appended to a column of the chart is in range. *)
Definition chart_in_range (self : EarleyChart.t) : Prop :=
  Forall (fun column => Forall in_range (Agenda.all column))
         (EarleyChart.cols self).

(** The outcome of an engine step is not the failed assertion, and a chart it
    returns has all its items in range. *)
Definition stays_in_range (r : result EarleyChart.t) : Prop :=
  match r with
  | Ok self => chart_in_range self
  | Raise AssertionError => False
  | _ => True
  end.

(** The agendas that [push] and [pop] build from the empty one, with the
    items pushed so far, oldest first. *)
Inductive built_by : list Item.t -> Agenda.t -> Prop :=
  | built_init : built_by [] Agenda.__init__
  | built_push pushed a item :
      built_by pushed a -> built_by (pushed ++ [item]) (Agenda.push item a)
  | built_pop pushed a item a' :
      built_by pushed a -> Agenda.pop a = Ok (item, a') -> built_by pushed a'.

(** What holds of an agenda [a] built from the pushes [pushed]. *)
Record index_invariant (pushed : list Item.t) (a : Agenda.t) : Prop := {
  inv_rep key rep :
    Agenda.dict_get (Agenda._index a) key = Some rep ->
    In rep pushed /\ In rep (Agenda.all a) /\
    ItemKey.eqb (Item.get_key rep) key = true /\
    forall q, In q pushed -> ItemKey.eqb (Item.get_key q) key = true ->
              PrimFloat.ltb (Item.weight q) (Item.weight rep) = false;
  inv_present p :
    In p pushed -> ItemKey.eqb (Item.get_key p) (Item.get_key p) = true ->
    is_Some (Agenda.dict_get (Agenda._index a) (Item.get_key p));
  inv_items p : In p (Agenda.all a) -> In p pushed
}.

(** A chart that an engine step returns has all its columns in [P]. *)
Definition columns_hold (P : Agenda.t -> Prop) (r : result EarleyChart.t)
    : Prop :=
  match r with
  | Ok self => Forall P (EarleyChart.cols self)
  | _ => True
  end.

(** The column was built from the empty agenda by pushes and pops. *)
Definition built (column : Agenda.t) : Prop :=
  exists pushed, built_by pushed column.

(** The item that ATTACH builds from a customer, whose back-pointer list is
    [backpointers], and a complete item. *)
Definition attached (customer item : Item.t) (backpointers : list Item.t)
    : Item.t :=
  Item.mk (Item.rule customer) (Item.dot_position customer + 1)
    (Item.start_position customer)
    (PrimFloat.add (Item.weight customer) (Item.weight item))
    (Some (backpointers ++ [item])%list).

(** ATTACH told as a fold over the customers of another column: every
    customer that waits for the lhs of [item] has its advanced copy pushed
    into the agenda [target]. *)
Fixpoint attach_all (customers : list Item.t) (item : Item.t)
    (target : Agenda.t) : result Agenda.t :=
  match customers with
  | [] => Ok target
  | customer :: rest =>
      next ← Item.next_symbol customer;
      if EarleyChart.symbol_eqb (Rule.lhs (Item.rule item)) next then
        match Item.backpointers customer with
        | None => Raise TypeError
        | Some backpointers =>
            attach_all rest item
              (Agenda.push (attached customer item backpointers) target)
        end
      else attach_all rest item target
  end.

(** Every key of the grammar's dict has at least one rule. *)
Definition keys_have_rules (g : Grammar.t) : Prop :=
  forall s rules, Grammar._expansions g !! s = Some rules -> rules <> [].



(** The grammar after the rule has been appended to the list of its lhs. *)
Definition with_rule (self : Grammar.t) (rule : Rule.t) : Grammar.t :=
  Grammar.mk (Grammar.start_symbol self)
    (<[Rule.lhs rule :=
         (default [] (Grammar._expansions self !! Rule.lhs rule) ++ [rule])%list]>
       (Grammar._expansions self)).

(** ** Sample inputs *)

Definition tab : string := String "009"%char EmptyString.

(** The value of a string of decimal digits. *)
Fixpoint digits_value (acc : Z) (s : string) : option Z :=
  match s with
  | EmptyString => Some acc
  | String c s' =>
      let n := Z.of_nat (nat_of_ascii c) in
      if (48 <=? n) && (n <=? 57) then digits_value (10 * acc + (n - 48)) s'
      else None
  end.

(** The double of a small integer. *)
Definition float_of_Z (n : Z) : float :=
  if n <? 0 then PrimFloat.opp (PrimFloat.of_uint63 (Uint63.of_Z (- n)))
  else PrimFloat.of_uint63 (Uint63.of_Z n).

(** [float(s)] on the plain decimal literals [[-]digits[.digits]] of at most
    15 digits: numerator and power of ten are exact doubles, so the one
    division rounds as [float] does.  Used for the sample inputs only. *)
Definition sample_float (s : string) : option float :=
  let '(negative, body) :=
    match s with
    | String "-"%char rest => (true, rest)
    | _ => (false, s)
    end in
  let sign x := if negative : bool then PrimFloat.opp x else x in
  match split_char "."%char body with
  | [whole] =>
      if (0 <? String.length whole)%nat && (String.length whole <=? 15)%nat
      then n ← digits_value 0 whole; Some (sign (float_of_Z n))
      else None
  | [whole; frac] =>
      if (0 <? String.length (whole ++ frac))%nat
         && (String.length (whole ++ frac) <=? 15)%nat
      then
        n ← digits_value 0 (whole ++ frac);
        Some (sign (PrimFloat.div (float_of_Z n)
                      (float_of_Z (10 ^ Z.of_nat (String.length frac)))))
      else None
  | _ => None
  end.

(** [log2] on the powers of two, where it is exact: the binary exponent.
    The sample inputs use no other argument. *)
Definition sample_log2 (x : float) : float :=
  let '(m, e) := Z.frexp x in
  if PrimFloat.eqb m 0.5%float then float_of_Z (e - 1) else PrimFloat.nan.

(** The grammar file of the single-rule scenario, [1.0 <tab> ROOT <tab> a],
    and the sentence file with the one sentence [a]. *)
Definition sample_files (path : string) : option string :=
  if String.eqb path "grammar.gr"
  then Some ("1.0" ++ tab ++ "ROOT" ++ tab ++ "a")
  else if String.eqb path "sentences.sen" then Some "a" else None.

(** The rule that line gives: its weight is [-log2(1.0) = -0.0]. *)
Definition rule_root_a : Rule.t := Rule.mk "ROOT" ["a"] (-0)%float.

(** The grammar object that [Grammar("ROOT", file)] sets out to build. *)
Definition grammar_root_a : Grammar.t :=
  Grammar.mk "ROOT" {[ "ROOT" := [rule_root_a] ]}.

(** The chart for the tokens [a] before seeding. *)
Definition chart_a : EarleyChart.t :=
  EarleyChart.mk ["a"] grammar_root_a [Agenda.__init__; Agenda.__init__] None.



(** A grammar with [S -> a B] and [B -> b], and the chart for [a b] in
    which column 1 received [S -> a . B] twice, first with weight 5 and then
    with weight 3. *)
Definition rule_s : Rule.t := Rule.mk "S" ["a"; "B"] 1%float.
Definition rule_b : Rule.t := Rule.mk "B" ["b"] 1%float.

Definition grammar_s : Grammar.t :=
  Grammar.mk "S" (<["S" := [rule_s]]> {[ "B" := [rule_b] ]}).

Definition item_s_1 (weight : float) : Item.t :=
  Item.mk rule_s 1 0 weight (Some [Item.mk rule_s 0 0 weight None]).

Definition heavy : Item.t := item_s_1 5%float.
Definition light : Item.t := item_s_1 3%float.

Definition column_relaxed : Agenda.t :=
  Agenda.push light (Agenda.push heavy Agenda.__init__).

Definition chart_relaxed : EarleyChart.t :=
  EarleyChart.mk ["a"; "b"] grammar_s
    [Agenda.__init__; column_relaxed; Agenda.__init__] None.

(** [B -> b .] from 1 to 2. *)
Definition item_b_done : Item.t :=
  Item.mk rule_b 1 1 1%float (Some [Item.mk rule_b 0 1 1%float None]).

(** [S -> a B .] as [_attach] builds it from a customer. *)
Definition item_s_2 (customer : Item.t) : Item.t :=
  Item.mk rule_s 2 0
    (PrimFloat.add (Item.weight customer) (Item.weight item_b_done))
    (Some [Item.mk rule_s 0 0 (Item.weight customer) None; item_b_done]).

(** A rule [T -> a b] with two terminals, the chart for [a b], and the item
    [T -> a . b] that the first scan leaves in column 1. *)
Definition rule_t : Rule.t := Rule.mk "T" ["a"; "b"] 1%float.

Definition grammar_t : Grammar.t := Grammar.mk "T" {[ "T" := [rule_t] ]}.


Definition item_t_0 : Item.t := Item.mk rule_t 0 0 1%float None.
Definition item_t_1 : Item.t := Item.mk rule_t 1 0 1%float (Some [item_t_0]).



(** ** Further notions of the statements *)

(** [n] calls of [pop] in a row: the items they return, first one first,
    and the agenda that is left. *)
Fixpoint pops (n : nat) (a : Agenda.t) : result (list Item.t * Agenda.t) :=
  match n with
  | O => Ok ([], a)
  | S n' =>
      popped ← Agenda.pop a;
      rest ← pops n' popped.2;
      Ok (popped.1 :: rest.1, rest.2)
  end.

(** The items of an agenda that are still waiting to be popped. *)
Definition waiting (a : Agenda.t) : list Item.t :=
  drop (Z.to_nat (Agenda._next a)) (Agenda.all a).


(** The outcome [r] of an engine step from [self], when it is a chart,
    is related to [self] by [R]. *)
Definition step_keeps (R : EarleyChart.t -> EarleyChart.t -> Prop)
    (self : EarleyChart.t) (r : result EarleyChart.t) : Prop :=
  match r with
  | Ok self' => R self self'
  | _ => True
  end.

(** What the engine leaves alone: the tokens, the number of columns, the
    start symbol and the rule list of every symbol. *)
Definition same_frame (self self' : EarleyChart.t) : Prop :=
  EarleyChart.tokens self' = EarleyChart.tokens self /\
  length (EarleyChart.cols self') = length (EarleyChart.cols self) /\
  Grammar.start_symbol (EarleyChart.grammar self')
  = Grammar.start_symbol (EarleyChart.grammar self) /\
  forall s,
    (Grammar.expansions s (EarleyChart.grammar self')).1
    = (Grammar.expansions s (EarleyChart.grammar self)).1.

(** The goal item is the same. *)
Definition same_goal (self self' : EarleyChart.t) : Prop :=
  EarleyChart.found_goal_item self' = EarleyChart.found_goal_item self.


(** The chart for [a b] after [T -> . a b] has been put into column 0 by
    hand, with its weight. *)
Definition chart_ab_seeded : EarleyChart.t :=
  EarleyChart.mk ["a"; "b"] grammar_t
    [Agenda.push item_t_0 Agenda.__init__; Agenda.__init__; Agenda.__init__]
    None.

(** [T -> a b .] from 0, as the second scan builds it. *)
Definition item_t_2 : Item.t := Item.mk rule_t 2 0 1%float (Some [item_t_1]).

(** One more than the number of times the dot of an item can still move. *)
Definition steps_left (item : Item.t) : nat :=
  S (Z.to_nat (len (Rule.rhs (Item.rule item)) - Item.dot_position item)).

(** A step budget with which ATTACH gets through these customers. *)
Definition attach_budget (customers : list Item.t) : nat :=
  sum_list_with steps_left customers.


(** Induction on items through their back-pointer lists. *)
Fixpoint Item_nested_ind (P : Item.t -> Prop)
    (step : forall rule dot start weight backpointers,
       match backpointers with
       | Some l => Forall P l
       | None => True
       end ->
       P (Item.mk rule dot start weight backpointers))
    (item : Item.t) : P item :=
  match item with
  | Item.mk rule dot start weight backpointers =>
      step rule dot start weight backpointers
        match backpointers as b
          return match b with Some l => Forall P l | None => True end
        with
        | None => I
        | Some l =>
            (fix all (l : list Item.t) : Forall P l :=
               match l with
               | [] => @List.Forall_nil _ P
               | x :: l' =>
                   @List.Forall_cons _ P x l' (Item_nested_ind P step x)
                     (all l')
               end) l
        end
  end.

(** The children that [_build_tree] builds from a list of back-pointers,
    left to right, up to the first one that raises. *)
Fixpoint build_children (tokens : list string) (bps : list Item.t)
    : result (list tree) :=
  match bps with
  | [] => Ok []
  | bp :: bps' =>
      child ← EarleyChart._build_tree tokens bp;
      rest ← build_children tokens bps';
      Ok (child :: rest)
  end.

(** The start positions of the items with an empty list of back-pointers
    that are reached from [item] through back-pointers, left to right. *)
Fixpoint leaf_positions (item : Item.t) : list Z :=
  match item with
  | Item.mk _ _ _ _ None => []
  | Item.mk _ _ start _ (Some []) => [start]
  | Item.mk _ _ _ _ (Some backpointers) =>
      concat (map leaf_positions backpointers)
  end.

(** [l[i]] for each index of the list, up to the first one that raises. *)
Fixpoint getitems {A} (l : list A) (indices : list Z) : result (list A) :=
  match indices with
  | [] => Ok []
  | i :: indices' =>
      x ← getitem l i;
      xs ← getitems l indices';
      Ok (x :: xs)
  end.

(** The label at the root of a tree. *)
Definition root_label (t : tree) : string :=
  match t with
  | Node label _ => label
  | Leaf label _ => label
  end.

(** Induction on trees through their lists of children. *)
Fixpoint tree_nested_ind (P : tree -> Prop)
    (node : forall label children,
       Forall P children -> P (Node label children))
    (leaf : forall label token, P (Leaf label token))
    (t : tree) : P t :=
  match t with
  | Leaf label token => leaf label token
  | Node label children =>
      node label children
        ((fix all (l : list tree) : Forall P l :=
            match l with
            | [] => @List.Forall_nil _ P
            | x :: l' =>
                @List.Forall_cons _ P x l' (tree_nested_ind P node leaf x)
                  (all l')
            end) children)
  end.

(** How often the character occurs in the string. *)
Fixpoint count_char (c : ascii) (s : string) : nat :=
  match s with
  | EmptyString => 0
  | String c' s' => (if Ascii.eqb c' c then 1 else 0) + count_char c s'
  end.

(** The number of nodes of a tree, leaves included. *)
Fixpoint nodes (t : tree) : nat :=
  match t with
  | Leaf _ _ => 1
  | Node _ children => S (list_sum (map nodes children))
  end.

(** No label and no token of the tree holds a parenthesis. *)
Fixpoint no_parens (t : tree) : bool :=
  match t with
  | Leaf label token =>
      (count_char "(" label + count_char ")" label
       + count_char "(" token + count_char ")" token =? 0)%nat
  | Node label children =>
      (count_char "(" label + count_char ")" label =? 0)%nat
      && forallb no_parens children
  end.

(** The grammar object after the calls [expansions(s)] for the symbols of
    the list, in order. *)
Definition lookups (symbols : list string) (g : Grammar.t) : Grammar.t :=
  foldl (fun g s => (Grammar.expansions s g).2) g symbols.

(** * Properties *)

(** ** Comparisons of floats *)

Ltac compare_cases :=
  cbn; try discriminate; try reflexivity;
  repeat match goal with s : bool |- _ => destruct s end;
  cbn; try discriminate; try reflexivity;
  change (Pos.compare_cont Eq) with Pos.compare;
  repeat match goal with
         | |- context [Z.compare ?x ?y] => destruct (Z.compare_spec x y)
         end;
  try discriminate; try reflexivity; try lia;
  repeat match goal with
         | |- context [Pos.compare ?x ?y] => destruct (Pos.compare_spec x y)
         end;
  cbn; try discriminate; try reflexivity; try lia.

Lemma SFcompare_Lt_trans (a b c : spec_float) :
  SFcompare a b = Some Lt -> SFcompare b c = Some Lt ->
  SFcompare a c = Some Lt.
Proof.
  destruct a as [sa|sa| |sa ma ea], b as [sb|sb| |sb mb eb],
           c as [sc|sc| |sc mc ec]; compare_cases.
Qed.

Lemma SFcompare_Lt_irrefl (a : spec_float) : SFcompare a a <> Some Lt.
Proof. destruct a as [s|s| |s m e]; compare_cases. Qed.

Lemma SFcompare_Eq_sym (a b : spec_float) :
  SFcompare a b = Some Eq -> SFcompare b a = Some Eq.
Proof.
  destruct a as [sa|sa| |sa ma ea], b as [sb|sb| |sb mb eb]; compare_cases.
Qed.

Lemma SFcompare_Eq_trans (a b c : spec_float) :
  SFcompare a b = Some Eq -> SFcompare b c = Some Eq ->
  SFcompare a c = Some Eq.
Proof.
  destruct a as [sa|sa| |sa ma ea], b as [sb|sb| |sb mb eb],
           c as [sc|sc| |sc mc ec]; compare_cases.
Qed.

Lemma float_ltb_irrefl (x : float) : PrimFloat.ltb x x = false.
Proof.
  rewrite FloatAxioms.ltb_spec. unfold SFltb.
  pose proof (SFcompare_Lt_irrefl (Prim2SF x)) as H.
  destruct (SFcompare (Prim2SF x) (Prim2SF x)) as [[]|]; congruence.
Qed.

Lemma float_ltb_trans (x y z : float) :
  PrimFloat.ltb x y = true -> PrimFloat.ltb y z = true ->
  PrimFloat.ltb x z = true.
Proof.
  rewrite !FloatAxioms.ltb_spec. unfold SFltb.
  destruct (SFcompare (Prim2SF x) (Prim2SF y)) as [[]|] eqn:E1;
    try discriminate.
  destruct (SFcompare (Prim2SF y) (Prim2SF z)) as [[]|] eqn:E2;
    try discriminate.
  intros _ _. now rewrite (SFcompare_Lt_trans _ _ _ E1 E2).
Qed.

Lemma float_eqb_sym (x y : float) :
  float_eqb x y = true -> float_eqb y x = true.
Proof.
  unfold float_eqb. rewrite !FloatAxioms.eqb_spec. unfold SFeqb.
  destruct (SFcompare (Prim2SF x) (Prim2SF y)) as [[]|] eqn:E;
    try discriminate.
  intros _. now rewrite (SFcompare_Eq_sym _ _ E).
Qed.

Lemma float_eqb_trans (x y z : float) :
  float_eqb x y = true -> float_eqb y z = true -> float_eqb x z = true.
Proof.
  unfold float_eqb. rewrite !FloatAxioms.eqb_spec. unfold SFeqb.
  destruct (SFcompare (Prim2SF x) (Prim2SF y)) as [[]|] eqn:E1;
    try discriminate.
  destruct (SFcompare (Prim2SF y) (Prim2SF z)) as [[]|] eqn:E2;
    try discriminate.
  intros _ _. now rewrite (SFcompare_Eq_trans _ _ _ E1 E2).
Qed.

(** ** Equality of keys *)

Lemma list_eqb_string_eq (l1 l2 : list string) :
  list_eqb String.eqb l1 l2 = true <-> l1 = l2.
Proof.
  revert l2. induction l1 as [|x l1 IH]; intros [|y l2]; cbn;
    try (split; [discriminate|congruence]); [tauto|].
  rewrite andb_true_iff, String.eqb_eq, IH. split.
  - intros [-> ->]. reflexivity.
  - intros [= -> ->]. auto.
Qed.

Lemma Rule_eqb_true (r1 r2 : Rule.t) :
  Rule.eqb r1 r2 = true <->
  Rule.lhs r1 = Rule.lhs r2 /\ Rule.rhs r1 = Rule.rhs r2 /\
  float_eqb (Rule.weight r1) (Rule.weight r2) = true.
Proof.
  unfold Rule.eqb.
  rewrite !andb_true_iff, String.eqb_eq, list_eqb_string_eq. tauto.
Qed.

Lemma ItemKey_eqb_true (k1 k2 : ItemKey.t) :
  ItemKey.eqb k1 k2 = true <->
  Rule.eqb (ItemKey.rule k1) (ItemKey.rule k2) = true /\
  ItemKey.dot_position k1 = ItemKey.dot_position k2 /\
  ItemKey.start_position k1 = ItemKey.start_position k2.
Proof.
  unfold ItemKey.eqb. rewrite !andb_true_iff, !Z.eqb_eq. tauto.
Qed.

Lemma ItemKey_eqb_sym (k1 k2 : ItemKey.t) :
  ItemKey.eqb k1 k2 = true -> ItemKey.eqb k2 k1 = true.
Proof.
  rewrite !ItemKey_eqb_true, !Rule_eqb_true.
  intros [(-> & -> & H) [-> ->]]. auto using float_eqb_sym.
Qed.

Lemma ItemKey_eqb_trans (k1 k2 k3 : ItemKey.t) :
  ItemKey.eqb k1 k2 = true -> ItemKey.eqb k2 k3 = true ->
  ItemKey.eqb k1 k3 = true.
Proof.
  rewrite !ItemKey_eqb_true, !Rule_eqb_true.
  intros [(-> & -> & H1) [-> ->]] [(-> & -> & H2) [-> ->]].
  eauto 6 using float_eqb_trans.
Qed.

(** Two keys that are equal to each other are looked up alike. *)
Lemma ItemKey_eqb_proper (k k1 k2 : ItemKey.t) :
  ItemKey.eqb k1 k2 = true -> ItemKey.eqb k k1 = ItemKey.eqb k k2.
Proof.
  intros H. destruct (ItemKey.eqb k k1) eqn:E1, (ItemKey.eqb k k2) eqn:E2;
    try reflexivity.
  - rewrite (ItemKey_eqb_trans _ _ _ E1 H) in E2. discriminate.
  - rewrite (ItemKey_eqb_trans _ _ _ E2 (ItemKey_eqb_sym _ _ H)) in E1.
    discriminate.
Qed.

(** ** The dict of an agenda *)

Lemma dict_get_proper (d : list (ItemKey.t * Item.t)) (k1 k2 : ItemKey.t) :
  ItemKey.eqb k1 k2 = true -> Agenda.dict_get d k1 = Agenda.dict_get d k2.
Proof.
  intros H. induction d as [|[k v] d IH]; cbn; [reflexivity|].
  rewrite (ItemKey_eqb_proper k _ _ H), IH. reflexivity.
Qed.

Lemma dict_get_set_eq (d : list (ItemKey.t * Item.t)) (k k' : ItemKey.t)
    (v : Item.t) :
  ItemKey.eqb k k' = true ->
  Agenda.dict_get (Agenda.dict_set d k v) k' = Some v.
Proof.
  intros H. induction d as [|[k0 v0] d IH]; cbn.
  - now rewrite H.
  - destruct (ItemKey.eqb k0 k) eqn:E; cbn.
    + now rewrite (ItemKey_eqb_trans _ _ _ E H).
    + rewrite <- (ItemKey_eqb_proper k0 _ _ H), E. exact IH.
Qed.

Lemma dict_get_set_ne (d : list (ItemKey.t * Item.t)) (k k' : ItemKey.t)
    (v : Item.t) :
  ItemKey.eqb k k' = false ->
  Agenda.dict_get (Agenda.dict_set d k v) k' = Agenda.dict_get d k'.
Proof.
  intros H. induction d as [|[k0 v0] d IH]; cbn.
  - now rewrite H.
  - destruct (ItemKey.eqb k0 k) eqn:E; cbn.
    + destruct (ItemKey.eqb k0 k') eqn:E'; [|reflexivity].
      rewrite (ItemKey_eqb_trans _ _ _ (ItemKey_eqb_sym _ _ E) E') in H.
      discriminate.
    + now rewrite IH.
Qed.

(** ** Agenda: the index holds the lightest item of each identity *)

Lemma pop_keeps_items (a a' : Agenda.t) (item : Item.t) :
  Agenda.pop a = Ok (item, a') ->
  Agenda._items a' = Agenda._items a /\ Agenda._index a' = Agenda._index a.
Proof.
  unfold Agenda.pop.
  destruct (Agenda.py_len a) as [n| |]; cbn; try discriminate.
  destruct (n =? 0); try discriminate.
  destruct (getitem (Agenda._items a) (Agenda._next a)); cbn; try discriminate.
  intros [= _ <-]. auto.
Qed.

Lemma index_invariant_init : index_invariant [] Agenda.__init__.
Proof. split; cbn; intros; try discriminate; tauto. Qed.

(** The index after [dict_set] under the key of [item], read at [key]. *)
Lemma index_invariant_set (pushed : list Item.t) (a : Agenda.t)
    (item : Item.t) :
  index_invariant pushed a ->
  (forall q, In q pushed ->
     ItemKey.eqb (Item.get_key q) (Item.get_key item) = true ->
     PrimFloat.ltb (Item.weight q) (Item.weight item) = false) ->
  index_invariant (pushed ++ [item])
    (Agenda.mk (Agenda._items a ++ [item])
       (Agenda.dict_set (Agenda._index a) (Item.get_key item) item)
       (Agenda._next a)).
Proof.
  intros [Hrep Hpresent Hitems] Hmin. split; cbn.
  - intros key rep.
    destruct (ItemKey.eqb (Item.get_key item) key) eqn:E.
    + rewrite (dict_get_set_eq _ _ _ _ E). intros [= <-].
      repeat split; try (apply in_or_app; right; left; reflexivity); auto.
      intros q [Hq|[<-|[]]]%in_app_or Hk.
      * apply Hmin; [exact Hq|].
        exact (ItemKey_eqb_trans _ _ _ Hk (ItemKey_eqb_sym _ _ E)).
      * apply float_ltb_irrefl.
    + rewrite (dict_get_set_ne _ _ _ _ E). intros Hget.
      destruct (Hrep _ _ Hget) as (H1 & H2 & H3 & H4).
      repeat split; try (apply in_or_app; left; assumption); auto.
      intros q [Hq|[<-|[]]]%in_app_or Hk; [auto|congruence].
  - intros p [Hp|[<-|[]]]%in_app_or Hk.
    + destruct (ItemKey.eqb (Item.get_key item) (Item.get_key p)) eqn:E.
      * rewrite (dict_get_set_eq _ _ _ _ E). eauto.
      * rewrite (dict_get_set_ne _ _ _ _ E). auto.
    + rewrite (dict_get_set_eq _ _ _ _ Hk). eauto.
  - intros p [Hp|Hp]%in_app_or; apply in_or_app; auto.
Qed.

Lemma index_invariant_push (pushed : list Item.t) (a : Agenda.t)
    (item : Item.t) :
  index_invariant pushed a ->
  index_invariant (pushed ++ [item]) (Agenda.push item a).
Proof.
  intros Hinv. pose proof Hinv as [Hrep Hpresent Hitems]. unfold Agenda.push.
  destruct (Agenda.dict_get (Agenda._index a) (Item.get_key item))
    as [existing|] eqn:Hget.
  - destruct (Hrep _ _ Hget) as (H1 & H2 & H3 & H4).
    destruct (PrimFloat.ltb (Item.weight item) (Item.weight existing)) eqn:Hlt.
    + apply index_invariant_set; [exact Hinv|].
      intros q Hq Hk.
      destruct (PrimFloat.ltb (Item.weight q) (Item.weight item)) eqn:Hq';
        [|reflexivity].
      rewrite <- (H4 q Hq Hk). symmetry.
      exact (float_ltb_trans _ _ _ Hq' Hlt).
    + split.
      * intros key rep Hget'.
        destruct (Hrep _ _ Hget') as (G1 & G2 & G3 & G4).
        repeat split; try (apply in_or_app; left; assumption); auto.
        intros q [Hq|[<-|[]]]%in_app_or Hk; [auto|].
        rewrite (dict_get_proper _ _ _ Hk) in Hget.
        congruence.
      * intros p [Hp|[<-|[]]]%in_app_or Hk; [auto|].
        rewrite Hget. eauto.
      * intros p Hp. apply in_or_app. auto.
  - apply index_invariant_set; [exact Hinv|].
    intros q Hq Hk.
    assert (Hqq : ItemKey.eqb (Item.get_key q) (Item.get_key q) = true)
      by exact (ItemKey_eqb_trans _ _ _ Hk (ItemKey_eqb_sym _ _ Hk)).
    destruct (Hpresent q Hq Hqq) as [r Hr].
    rewrite (dict_get_proper _ _ _ Hk) in Hr. congruence.
Qed.

Lemma built_by_invariant (pushed : list Item.t) (a : Agenda.t) :
  built_by pushed a -> index_invariant pushed a.
Proof.
  induction 1 as [|pushed a item _ IH|pushed a item a' _ IH Hpop].
  - apply index_invariant_init.
  - apply index_invariant_push, IH.
  - destruct (pop_keeps_items _ _ _ Hpop) as [Hitems Hindex].
    destruct IH as [Hrep Hpresent Hall]. unfold Agenda.all in *.
    split; rewrite ?Hitems, ?Hindex; unfold Agenda.all; rewrite ?Hitems; auto.
Qed.

(** C2, as amended.  In an agenda built by pushes and pops, every identity
    that was pushed (and whose key equals itself, that is, whose rule weight
    is not nan) has an entry in the duplicate-detection index; the item
    stored there was pushed with that identity, is in the list that [all]
    returns, and no item pushed with that identity has a strictly smaller
    weight.  The list of [all] holds pushed items only. *)
Theorem index_keeps_minimum (pushed : list Item.t) (a : Agenda.t)
    (p : Item.t) :
  built_by pushed a ->
  In p pushed ->
  ItemKey.eqb (Item.get_key p) (Item.get_key p) = true ->
  exists rep,
    Agenda.dict_get (Agenda._index a) (Item.get_key p) = Some rep /\
    In rep pushed /\
    In rep (Agenda.all a) /\
    ItemKey.eqb (Item.get_key rep) (Item.get_key p) = true /\
    (forall q, In q pushed ->
       ItemKey.eqb (Item.get_key q) (Item.get_key p) = true ->
       PrimFloat.ltb (Item.weight q) (Item.weight rep) = false) /\
    (forall q, In q (Agenda.all a) -> In q pushed).
Proof.
  intros Hbuilt Hp Hk.
  destruct (built_by_invariant _ _ Hbuilt) as [Hrep Hpresent Hitems].
  destruct (Hpresent p Hp Hk) as [rep Hget].
  destruct (Hrep _ _ Hget) as (H1 & H2 & H3 & H4).
  exists rep. auto 10.
Qed.

Lemma column_relaxed_built : built_by [heavy; light] column_relaxed.
Proof.
  exact (built_push [heavy] _ light (built_push [] _ heavy built_init)).
Defined.

(** The theorem at column 1 of the sample chart and the identity of
    [heavy]. *)
Lemma index_keeps_minimum_witness :
  exists rep,
    Agenda.dict_get (Agenda._index column_relaxed) (Item.get_key heavy)
      = Some rep /\
    In rep [heavy; light] /\
    In rep (Agenda.all column_relaxed) /\
    ItemKey.eqb (Item.get_key rep) (Item.get_key heavy) = true /\
    (forall q, In q [heavy; light] ->
       ItemKey.eqb (Item.get_key q) (Item.get_key heavy) = true ->
       PrimFloat.ltb (Item.weight q) (Item.weight rep) = false) /\
    (forall q, In q (Agenda.all column_relaxed) -> In q [heavy; light]).
Proof.
  apply (index_keeps_minimum [heavy; light] column_relaxed heavy).
  - exact column_relaxed_built.
  - left. reflexivity.
  - vm_compute. reflexivity.
Defined.

(** C2, as stated, fails.  Column 1 received [S -> a . B] with weight 5 and
    then with weight 3: the heavier item has the same identity as the lighter
    one, is still in the list that ATTACH scans, is still the next item that
    [pop] returns, and [_attach] of [B -> b .] builds an item from it. *)
Lemma superseded_item_stays_live :
  built_by [heavy; light] column_relaxed /\
  ItemKey.eqb (Item.get_key heavy) (Item.get_key light) = true /\
  PrimFloat.ltb (Item.weight light) (Item.weight heavy) = true /\
  Agenda.all column_relaxed = [heavy; light] /\
  fst <$> Agenda.pop column_relaxed = Ok heavy /\
  (chart ← EarleyChart._attach 2 item_b_done 2 chart_relaxed;
   Agenda.all <$> getitem (EarleyChart.cols chart) 2)
  = Ok [item_s_2 heavy; item_s_2 light].
Proof.
  split; [exact column_relaxed_built|].
  repeat split; vm_compute; reflexivity.
Qed.

(** ** Indexing with a valid position *)

Lemma norm_index_nonneg {A} (l : list A) (i : Z) :
  0 <= i < len l -> norm_index l i = Some (Z.to_nat i).
Proof.
  intros H. unfold norm_index.
  destruct (Z.ltb_spec i 0); [lia|].
  destruct (Z.leb_spec 0 i); [|lia].
  destruct (Z.ltb_spec i (len l)); [reflexivity|lia].
Qed.

Lemma getitem_nonneg {A} (l : list A) (i : Z) (x : A) :
  0 <= i -> l !! Z.to_nat i = Some x -> getitem l i = Ok x.
Proof.
  intros Hi Hx. unfold getitem.
  rewrite norm_index_nonneg, Hx; [reflexivity|].
  apply lookup_lt_Some in Hx. unfold len. lia.
Qed.

Lemma setitem_nonneg {A} (l : list A) (i : Z) (x : A) :
  0 <= i < len l -> setitem l i x = Ok (<[Z.to_nat i := x]> l).
Proof. intros H. unfold setitem. now rewrite norm_index_nonneg. Qed.

Lemma push_col_nonneg (self : EarleyChart.t) (position : Z) (item : Item.t)
    (column : Agenda.t) :
  0 <= position ->
  EarleyChart.cols self !! Z.to_nat position = Some column ->
  EarleyChart.push_col position item self
  = Ok (EarleyChart.mk (EarleyChart.tokens self) (EarleyChart.grammar self)
          (<[Z.to_nat position := Agenda.push item column]>
             (EarleyChart.cols self))
          (EarleyChart.found_goal_item self)).
Proof.
  intros Hpos Hcol. unfold EarleyChart.push_col.
  rewrite (getitem_nonneg _ _ _ Hpos Hcol). cbn.
  rewrite setitem_nonneg; [reflexivity|].
  apply lookup_lt_Some in Hcol. unfold len. lia.
Qed.

(** ** SCAN *)

Lemma advance_at_symbol (item : Item.t) (next : string) (dot : Z)
    (weight : float) (backpointers : list Item.t) :
  Item.next_symbol item = Ok (Some next) ->
  Item.advance item dot weight backpointers
  = Ok (Item.mk (Item.rule item) dot (Item.start_position item) weight
          (Some backpointers)).
Proof. intros H. unfold Item.advance. rewrite H. reflexivity. Qed.






(** ** Loading a grammar file *)






Lemma split_char_head (sep : ascii) (s : string) :
  getitem (split_char sep s) 0 = Ok (hd EmptyString (split_char sep s)).
Proof.
  destruct (split_char sep s) as [|w ws] eqn:E; [|reflexivity].
  destruct s as [|c s]; cbn in E; [discriminate|].
  destruct (Ascii.eqb c sep); [discriminate|].
  destruct (split_char sep s); discriminate.
Qed.







(** ** Grammar: lookups through the defaultdict *)

Lemma expansions_rules (s : string) (g : Grammar.t) :
  (Grammar.expansions s g).1 = default [] (Grammar._expansions g !! s).
Proof.
  unfold Grammar.expansions. now destruct (Grammar._expansions g !! s).
Qed.

(** After [expansions(s)] the symbol [s] is a key, whatever it was before. *)
Lemma expansions_makes_key (s : string) (g : Grammar.t) :
  Grammar.is_nonterminal s (Grammar.expansions s g).2 = true.
Proof.
  unfold Grammar.expansions, Grammar.is_nonterminal.
  destruct (Grammar._expansions g !! s) eqn:E; cbn.
  - rewrite E. apply bool_decide_eq_true. eauto.
  - rewrite lookup_insert_eq. apply bool_decide_eq_true. eauto.
Qed.

(** As long as every key has a rule, the two questions agree. *)
Lemma is_nonterminal_iff_rules (s : string) (g : Grammar.t) :
  keys_have_rules g ->
  Grammar.is_nonterminal s g = true <-> (Grammar.expansions s g).1 <> [].
Proof.
  intros Hkeys. rewrite expansions_rules. unfold Grammar.is_nonterminal.
  rewrite bool_decide_eq_true.
  destruct (Grammar._expansions g !! s) as [rules|] eqn:E; cbn.
  - split; [intros _; exact (Hkeys _ _ E)|eauto].
  - split; [intros [? [=]]|congruence].
Qed.

(** The loader keeps every key with a rule. *)
Lemma with_rule_keys (g : Grammar.t) (rule : Rule.t) :
  keys_have_rules g -> keys_have_rules (with_rule g rule).
Proof.
  intros Hkeys s rules. unfold with_rule. cbn.
  destruct (decide (Rule.lhs rule = s)) as [<-|Hne].
  - rewrite lookup_insert_eq. intros [= <-].
    now destruct (default [] _).
  - rewrite lookup_insert_ne by exact Hne. apply Hkeys.
Qed.

Lemma add_rule_from_line_keys (py_float : string -> option float)
    (libm_log2 : float -> float) (line : string) (g g' : Grammar.t) :
  keys_have_rules g ->
  Grammar.add_rule_from_line py_float libm_log2 line g = Ok g' ->
  keys_have_rules g'.
Proof.
  intros Hkeys. unfold Grammar.add_rule_from_line.
  rewrite split_char_head. cbn.
  destruct (String.eqb _ _); [now intros [= <-]|].
  destruct (split_char _ _) as [|_prob [|lhs [|_rhs [|]]]]; try discriminate.
  destruct (py_float _prob); cbn; [|discriminate].
  destruct (Grammar.math_log2 libm_log2 f) as [l| |]; cbn; try discriminate.
  intros [= <-].
  exact (with_rule_keys g
           (Rule.mk lhs (split_ws _rhs) (PrimFloat.opp l)) Hkeys).
Qed.

(** The lookup of a terminal stores it as a key without rules. *)
Lemma expansions_of_terminal_breaks_keys (s : string) (g : Grammar.t) :
  Grammar.is_nonterminal s g = false ->
  ~ keys_have_rules (Grammar.expansions s g).2.
Proof.
  unfold Grammar.is_nonterminal, Grammar.expansions.
  rewrite bool_decide_eq_false.
  destruct (Grammar._expansions g !! s) eqn:E; [intros []; eauto|].
  intros _ Hkeys. apply (Hkeys s []); [|reflexivity].
  cbn. apply lookup_insert_eq.
Qed.

(** C8 fails on the code.  In the grammar with the one rule [ROOT -> a] the
    symbol [a] is a terminal: [is_nonterminal] says no and [expansions] is
    empty.  That call of [expansions] stores [a] in the defaultdict, so
    afterwards [is_nonterminal] says yes while [expansions] is still empty. *)
Lemma lookup_turns_terminal_into_nonterminal :
  Grammar.is_nonterminal "a" grammar_root_a = false /\
  (Grammar.expansions "a" grammar_root_a).1 = [] /\
  Grammar.is_nonterminal "a" (Grammar.expansions "a" grammar_root_a).2 = true /\
  (Grammar.expansions "a" (Grammar.expansions "a" grammar_root_a).2).1 = [].
Proof. repeat split; vm_compute; reflexivity. Qed.

(** ** Grammar: construction *)

Lemma defaultdict_is_unbound :
  load_global "defaultdict" = Raise (NameError "defaultdict").
Proof. reflexivity. Qed.

Lemma imported_names_are_bound :
  Forall (fun name => load_global name = Ok ())
    ["Counter"; "dataclass"; "Path"; "math"; "list"; "float"; "open"].
Proof. repeat constructor. Qed.

(** C9.  Whatever the start symbol and the rule files, also with no file,
    constructing a [Grammar] raises [NameError] for the name [defaultdict],
    which the module never binds; the constructor returns no grammar. *)
Theorem grammar_init_raises_name_error (py_float : string -> option float)
    (libm_log2 : float -> float) (fs : string -> option string)
    (start_symbol : string) (files : list string) :
  Grammar.__init__ py_float libm_log2 fs start_symbol files
  = Raise (NameError "defaultdict") /\
  forall g,
    Grammar.__init__ py_float libm_log2 fs start_symbol files <> Ok g.
Proof.
  assert (H : Grammar.__init__ py_float libm_log2 fs start_symbol files
              = Raise (NameError "defaultdict")).
  { unfold Grammar.__init__. now rewrite defaultdict_is_unbound. }
  split; [exact H|]. intros g. rewrite H. discriminate.
Qed.

Lemma main_raises_name_error (py_float : string -> option float)
    (libm_log2 : float -> float) (fs : string -> option string) (fuel : nat)
    (grammar_path sentences_path start_symbol : string) :
  main py_float libm_log2 fs fuel grammar_path sentences_path start_symbol
  = ([], Raise (NameError "defaultdict")).
Proof. reflexivity. Qed.

(** The file of that scenario does hold the grammar [grammar_root_a]. *)
Lemma sample_file_is_grammar_root_a :
  Grammar.add_rules_from_file sample_float sample_log2 sample_files
    "grammar.gr" (Grammar.mk "ROOT" ∅)
  = Ok grammar_root_a.
Proof. vm_compute. reflexivity. Qed.

(** ** The engine: seeding *)

Lemma predict_rules_raises (rule : Rule.t) (rules : list Rule.t)
    (position : Z) (self : EarleyChart.t) :
  EarleyChart.predict_rules (rule :: rules) position self = Raise TypeError.
Proof. reflexivity. Qed.

(** PREDICT either finds no rule and pushes nothing, or raises at the first
    rule: the [Item] is constructed without its weight. *)
Lemma predict_outcome (nonterminal : string) (position : Z)
    (self : EarleyChart.t) :
  EarleyChart._predict nonterminal position self
  = match (Grammar.expansions nonterminal (EarleyChart.grammar self)).1 with
    | [] =>
        Ok (EarleyChart.mk (EarleyChart.tokens self)
              (Grammar.expansions nonterminal (EarleyChart.grammar self)).2
              (EarleyChart.cols self) (EarleyChart.found_goal_item self))
    | _ :: _ => Raise TypeError
    end.
Proof.
  unfold EarleyChart._predict.
  destruct (Grammar.expansions nonterminal (EarleyChart.grammar self))
    as [[|rule rules] g']; reflexivity.
Qed.

(** C3 fails on the code.  Seeding column 0 for the grammar with the rule
    [ROOT -> a] raises [TypeError]: no item is pushed. *)
Lemma seeding_raises_type_error :
  EarleyChart._predict (Grammar.start_symbol grammar_root_a) 0 chart_a
  = Raise TypeError.
Proof. vm_compute. reflexivity. Qed.

(** ** The engine: a run *)

Lemma drain_empty_column (fuel : nat) (i : Z) (self : EarleyChart.t)
    (column : Agenda.t) :
  getitem (EarleyChart.cols self) i = Ok column ->
  Agenda.__len__ column = 0 ->
  EarleyChart.drain fuel i self = Ok self.
Proof.
  intros Hcol Hlen.
  destruct fuel; cbn; rewrite Hcol; cbn; unfold Agenda.py_len;
    rewrite Hlen; reflexivity.
Qed.

Lemma drain_columns_empty (fuel : nat) (n : nat) (i : Z) (total : nat)
    (tokens : list string) (g : Grammar.t) (goal : option Item.t) :
  0 <= i -> (Z.to_nat i + n <= total)%nat ->
  EarleyChart.drain_columns fuel n i
    (EarleyChart.mk tokens g (replicate total Agenda.__init__) goal)
  = Ok (EarleyChart.mk tokens g (replicate total Agenda.__init__) goal).
Proof.
  revert i. induction n as [|n IH]; intros i Hi Hn; [reflexivity|].
  cbn [EarleyChart.drain_columns].
  rewrite (drain_empty_column _ _ _ Agenda.__init__); [|..|reflexivity].
  - cbn. apply IH; lia.
  - apply getitem_nonneg; [exact Hi|].
    apply lookup_replicate_2. cbn. lia.
Qed.

(** The whole run: [TypeError] when the start symbol has a rule, and
    otherwise a chart of empty columns without a goal item. *)
Lemma run_outcome (fuel : nat) (tokens : list string) (g : Grammar.t) :
  EarleyChart.__init__ fuel tokens g
  = match (Grammar.expansions (Grammar.start_symbol g) g).1 with
    | [] =>
        Ok (EarleyChart.mk tokens
              (Grammar.expansions (Grammar.start_symbol g) g).2
              (replicate (Z.to_nat (len tokens + 1)) Agenda.__init__) None)
    | _ :: _ => Raise TypeError
    end.
Proof.
  unfold EarleyChart.__init__, EarleyChart._run_earley.
  cbn [EarleyChart.tokens EarleyChart.grammar EarleyChart.found_goal_item].
  rewrite predict_outcome.
  cbn [EarleyChart.tokens EarleyChart.grammar EarleyChart.found_goal_item
       EarleyChart.cols].
  destruct (Grammar.expansions (Grammar.start_symbol g) g).1; [|reflexivity].
  cbn [mbind result_bind EarleyChart.cols].
  apply drain_columns_empty; [lia|].
  rewrite length_replicate. cbn. lia.
Qed.

(** No grammar and no input make the engine return a parse. *)
Lemma engine_returns_no_parse (fuel : nat) (tokens : list string)
    (g : Grammar.t) :
  (chart ← EarleyChart.__init__ fuel tokens g;
   EarleyChart.get_best_parse chart) = Raise TypeError \/
  (chart ← EarleyChart.__init__ fuel tokens g;
   EarleyChart.get_best_parse chart) = Ok None.
Proof.
  rewrite run_outcome.
  destruct (Grammar.expansions (Grammar.start_symbol g) g).1; auto.
Qed.

(** A sentence whose chart raises ends the loop over the sentences. *)
Lemma parse_sentences_raise (fuel : nat) (sentence : string)
    (rest : list string) (g : Grammar.t) (e : exn) :
  strip sentence <> EmptyString ->
  EarleyChart.__init__ fuel (split_ws (strip sentence)) g = Raise e ->
  parse_sentences fuel (sentence :: rest) g = ([], Raise e).
Proof.
  intros Hne Hraise. cbn [parse_sentences].
  destruct (String.eqb_spec (strip sentence) EmptyString); [contradiction|].
  rewrite Hraise. reflexivity.
Qed.

(** C6 fails on the code.  With the grammar file of the one rule
    [1.0 ROOT a] and the sentence file [a], [main] prints nothing and ends
    with the [NameError] of the [Grammar] constructor.  The loader by itself
    reads the file as the grammar with [ROOT -> a], and with that grammar
    the loop over the sentences prints nothing either: the chart of the
    sentence raises [TypeError]. *)
Lemma single_rule_scenario_raises (fuel : nat) :
  main sample_float sample_log2 sample_files fuel
    "grammar.gr" "sentences.sen" "ROOT"
  = ([], Raise (NameError "defaultdict")) /\
  Grammar.add_rules_from_file sample_float sample_log2 sample_files
    "grammar.gr" (Grammar.mk "ROOT" ∅) = Ok grammar_root_a /\
  parse_sentences fuel (readlines "a") grammar_root_a = ([], Raise TypeError).
Proof.
  split; [apply main_raises_name_error|].
  split; [exact sample_file_is_grammar_root_a|].
  change (readlines "a") with ["a"].
  apply parse_sentences_raise; [discriminate|].
  rewrite run_outcome. vm_compute. reflexivity.
Qed.



(** ** The dot stays in range *)

Lemma getitem_lookup {A} (l : list A) (i : Z) (x : A) :
  getitem l i = Ok x -> exists n, norm_index l i = Some n /\ l !! n = Some x.
Proof.
  unfold getitem. destruct (norm_index l i) as [n|]; [|discriminate].
  destruct (l !! n) eqn:E; [|discriminate]. intros [= <-]. eauto.
Qed.

Lemma getitem_raises {A} (l : list A) (i : Z) :
  (exists x, getitem l i = Ok x) \/ getitem l i = Raise IndexError.
Proof.
  unfold getitem. destruct (norm_index l i) as [n|]; [|auto].
  destruct (l !! n); eauto.
Qed.

Lemma setitem_raises {A} (l : list A) (i : Z) (x : A) :
  (exists n, setitem l i x = Ok (<[n := x]> l)) \/
  setitem l i x = Raise IndexError.
Proof. unfold setitem. destruct (norm_index l i); eauto. Qed.

Lemma in_range_iff (item : Item.t) :
  in_range item <->
  (0 <=? Item.dot_position item)
  && (Item.dot_position item <=? len (Rule.rhs (Item.rule item))) = true.
Proof. unfold in_range. rewrite andb_true_iff, !Z.leb_le. tauto. Qed.

(** On an item in range [next_symbol] returns: [None] at the end of the
    rule, the symbol after the dot before it. *)
Lemma next_symbol_in_range (item : Item.t) :
  in_range item ->
  (Item.dot_position item = len (Rule.rhs (Item.rule item)) /\
   Item.next_symbol item = Ok None) \/
  (Item.dot_position item < len (Rule.rhs (Item.rule item)) /\
   exists next, Item.next_symbol item = Ok (Some next)).
Proof.
  intros H. pose proof H as [H0 H1]. apply in_range_iff in H.
  unfold Item.next_symbol. rewrite H.
  destruct (Z.eqb_spec (Item.dot_position item)
              (len (Rule.rhs (Item.rule item)))) as [E|E]; [auto|].
  right. split; [lia|].
  destruct (lookup_lt_is_Some_2 (Rule.rhs (Item.rule item))
              (Z.to_nat (Item.dot_position item))) as [next Hnext].
  { unfold len in *. lia. }
  exists next. now rewrite (getitem_nonneg _ _ _ H0 Hnext).
Qed.

Lemma next_symbol_assertion (item : Item.t) :
  Item.next_symbol item = Raise AssertionError <-> ~ in_range item.
Proof.
  split.
  - intros H Hr.
    destruct (next_symbol_in_range item Hr) as [[_ E]|[_ [next E]]];
      congruence.
  - intros H. unfold Item.next_symbol.
    destruct ((0 <=? Item.dot_position item)
              && (Item.dot_position item <=? len (Rule.rhs (Item.rule item))))
      eqn:E; [|reflexivity].
    now apply in_range_iff in E.
Qed.

Lemma advance_at_end (item : Item.t) (dot : Z) (weight : float)
    (backpointers : list Item.t) :
  Item.dot_position item = len (Rule.rhs (Item.rule item)) ->
  Item.advance item dot weight backpointers = Raise IndexError.
Proof.
  intros E. assert (H : in_range item) by (unfold in_range, len in *; lia).
  destruct (next_symbol_in_range item H) as [[_ Hn]|[Hlt _]]; [|lia].
  unfold Item.advance. now rewrite Hn.
Qed.

Lemma push_keeps_range (item : Item.t) (a : Agenda.t) :
  Forall in_range (Agenda.all a) -> in_range item ->
  Forall in_range (Agenda.all (Agenda.push item a)).
Proof.
  intros Ha Hi. unfold Agenda.push, Agenda.all in *.
  destruct (Agenda.dict_get _ _) as [existing|]; cbn.
  - destruct (PrimFloat.ltb _ _); cbn; [|exact Ha].
    apply Forall_app. auto.
  - apply Forall_app. auto.
Qed.

Lemma push_col_stays (position : Z) (item : Item.t) (self : EarleyChart.t) :
  chart_in_range self -> in_range item ->
  stays_in_range (EarleyChart.push_col position item self).
Proof.
  intros Hc Hi. unfold EarleyChart.push_col.
  destruct (getitem_raises (EarleyChart.cols self) position)
    as [[column Hcol]| ->]; [|exact I].
  rewrite Hcol. cbn.
  destruct (setitem_raises (EarleyChart.cols self) position
              (Agenda.push item column)) as [[n ->]| ->]; [|exact I].
  cbn. unfold chart_in_range. cbn.
  apply Forall_insert; [exact Hc|].
  apply push_keeps_range; [|exact Hi].
  destruct (getitem_lookup _ _ _ Hcol) as (m & _ & Hm).
  exact (Forall_lookup_1 _ _ _ _ Hc Hm).
Qed.

Lemma stays_bind (r : result EarleyChart.t)
    (f : EarleyChart.t -> result EarleyChart.t) :
  stays_in_range r ->
  (forall self, chart_in_range self -> stays_in_range (f self)) ->
  stays_in_range (r ≫= f).
Proof. destruct r as [self|e|]; cbn; auto. Qed.

Lemma predict_stays (nonterminal : string) (position : Z)
    (self : EarleyChart.t) :
  chart_in_range self ->
  stays_in_range (EarleyChart._predict nonterminal position self).
Proof.
  intros Hc. rewrite predict_outcome.
  destruct (Grammar.expansions nonterminal (EarleyChart.grammar self)).1;
    [exact Hc|exact I].
Qed.

Lemma scan_stays (item : Item.t) (position : Z) (self : EarleyChart.t) :
  chart_in_range self -> in_range item ->
  stays_in_range (EarleyChart._scan item position self).
Proof.
  intros Hc Hi. unfold EarleyChart._scan.
  destruct (position <? len (EarleyChart.tokens self)); [|exact Hc].
  destruct (getitem_raises (EarleyChart.tokens self) position)
    as [[token ->]| ->]; [|exact I].
  cbn. destruct (next_symbol_in_range item Hi) as [[_ ->]|[Hlt [next Hn]]].
  - exact Hc.
  - rewrite Hn. cbn. destruct (String.eqb token next); [|exact Hc].
    rewrite (advance_at_symbol _ _ _ _ _ Hn). cbn.
    apply push_col_stays; [exact Hc|].
    unfold in_range in *. cbn. lia.
Qed.

Lemma attach_from_stays (fuel j : nat) (item : Item.t) (position mid : Z)
    (self : EarleyChart.t) :
  chart_in_range self ->
  stays_in_range (EarleyChart.attach_from fuel j item position mid self).
Proof.
  revert j self. induction fuel as [|fuel IH]; intros j self Hc.
  - cbn. destruct (getitem_raises (EarleyChart.cols self) mid)
      as [[column ->]| ->]; [|exact I].
    cbn. destruct (Agenda.all column !! j); [exact I|exact Hc].
  - cbn. destruct (getitem_raises (EarleyChart.cols self) mid)
      as [[column Hcol]| ->]; [|exact I].
    rewrite Hcol. cbn.
    destruct (Agenda.all column !! j) as [customer|] eqn:Hj; [|exact Hc].
    assert (Hcust : in_range customer).
    { destruct (getitem_lookup _ _ _ Hcol) as (m & _ & Hm).
      exact (Forall_lookup_1 _ _ _ _ (Forall_lookup_1 _ _ _ _ Hc Hm) Hj). }
    destruct (next_symbol_in_range customer Hcust)
      as [[_ ->]|[Hlt [next Hn]]]; cbn; [now apply IH|].
    rewrite Hn. cbn.
    destruct (String.eqb (Rule.lhs (Item.rule item)) next); [|now apply IH].
    destruct (Item.backpointers customer) as [bps|]; cbn; [|exact I].
    rewrite (advance_at_symbol _ _ _ _ _ Hn). cbn.
    apply stays_bind; [|intros self' Hc'; now apply IH].
    apply push_col_stays; [exact Hc|].
    unfold in_range in *. cbn. lia.
Qed.

Lemma attach_stays (fuel : nat) (item : Item.t) (position : Z)
    (self : EarleyChart.t) :
  chart_in_range self ->
  stays_in_range (EarleyChart._attach fuel item position self).
Proof. apply attach_from_stays. Qed.

Lemma process_stays (fuel : nat) (item : Item.t) (i : Z)
    (self : EarleyChart.t) :
  chart_in_range self -> in_range item ->
  stays_in_range (EarleyChart.process fuel item i self).
Proof.
  intros Hc Hi. unfold EarleyChart.process.
  destruct (next_symbol_in_range item Hi) as [[_ ->]|[_ [next ->]]]; cbn.
  - pose proof (attach_stays fuel item i self Hc) as Ha.
    destruct (EarleyChart._attach fuel item i self) as [self'|e|]; cbn;
      [|exact Ha|exact I].
    destruct (_ && _); [|exact Ha].
    destruct (EarleyChart.found_goal_item self'); [|exact Ha].
    destruct (PrimFloat.ltb _ _); exact Ha.
  - destruct (Grammar.is_nonterminal next (EarleyChart.grammar self)).
    + now apply predict_stays.
    + now apply scan_stays.
Qed.

Lemma pop_in_range (a a' : Agenda.t) (item : Item.t) :
  Forall in_range (Agenda.all a) -> Agenda.pop a = Ok (item, a') ->
  in_range item /\ Forall in_range (Agenda.all a').
Proof.
  intros Ha Hpop. destruct (pop_keeps_items _ _ _ Hpop) as [Hitems _].
  unfold Agenda.all in *. rewrite Hitems. split; [|exact Ha].
  unfold Agenda.pop in Hpop.
  destruct (Agenda.py_len a) as [n| |]; cbn in Hpop; try discriminate.
  destruct (n =? 0); [discriminate|].
  destruct (getitem (Agenda._items a) (Agenda._next a)) as [x| |] eqn:E;
    cbn in Hpop; try discriminate.
  injection Hpop as <- _.
  destruct (getitem_lookup _ _ _ E) as (m & _ & Hm).
  exact (Forall_lookup_1 _ _ _ _ Ha Hm).
Qed.

Lemma pop_raises (a : Agenda.t) :
  (exists item a', Agenda.pop a = Ok (item, a')) \/
  Agenda.pop a = Raise IndexError \/ Agenda.pop a = Raise ValueError.
Proof.
  unfold Agenda.pop, Agenda.py_len.
  destruct (Agenda.__len__ a <? 0); cbn; [auto|].
  destruct (Agenda.__len__ a =? 0); [auto|].
  destruct (getitem_raises (Agenda._items a) (Agenda._next a))
    as [[x ->]| ->]; cbn; eauto.
Qed.

Lemma drain_stays (fuel : nat) (i : Z) (self : EarleyChart.t) :
  chart_in_range self -> stays_in_range (EarleyChart.drain fuel i self).
Proof.
  revert self. induction fuel as [|fuel IH]; intros self Hc; cbn;
    (destruct (getitem_raises (EarleyChart.cols self) i)
       as [[column Hcol]| ->]; [rewrite Hcol; cbn|exact I]);
    unfold Agenda.py_len;
    (destruct (Agenda.__len__ column <? 0); cbn; [exact I|]);
    (destruct (Agenda.__len__ column =? 0); [exact Hc|]); [exact I|].
  destruct (pop_raises column) as [(item & column' & Hpop)|[-> | ->]];
    [|exact I..].
  rewrite Hpop. cbn.
  destruct (getitem_lookup _ _ _ Hcol) as (m & _ & Hm).
  destruct (pop_in_range _ _ _ (Forall_lookup_1 _ _ _ _ Hc Hm) Hpop)
    as [Hitem Hcolumn'].
  destruct (setitem_raises (EarleyChart.cols self) i column')
    as [[n ->]| ->]; [|exact I].
  cbn. apply stays_bind; [|exact IH].
  apply process_stays; [|exact Hitem].
  unfold chart_in_range. cbn. now apply Forall_insert.
Qed.

Lemma drain_columns_stays (fuel n : nat) (i : Z) (self : EarleyChart.t) :
  chart_in_range self ->
  stays_in_range (EarleyChart.drain_columns fuel n i self).
Proof.
  revert i self. induction n as [|n IH]; intros i self Hc; cbn; [exact Hc|].
  apply stays_bind; [now apply drain_stays|]. intros self' Hc'. now apply IH.
Qed.

Lemma init_stays (fuel : nat) (tokens : list string) (g : Grammar.t) :
  stays_in_range (EarleyChart.__init__ fuel tokens g).
Proof.
  unfold EarleyChart.__init__, EarleyChart._run_earley.
  apply stays_bind.
  - apply predict_stays. unfold chart_in_range. cbn.
    apply Forall_replicate. constructor.
  - intros self Hc. now apply drain_columns_stays.
Qed.

Lemma predicted_item_in_range (rule : Rule.t) (position : Z)
    (weight : option float) (backpointers : option (option (list Item.t)))
    (item : Item.t) :
  Item.__init__ rule 0 position weight backpointers = Ok item ->
  in_range item.
Proof.
  unfold Item.__init__. destruct weight; [|discriminate].
  intros [= <-]. unfold in_range, len. cbn. lia.
Qed.

(** C10.  [advance] raises [IndexError] on an item whose dot is at the end
    of its rule; on an item in range [next_symbol] does not fail its
    assertion; an item constructed with the dot at 0, as PREDICT does, is in
    range; PREDICT, SCAN and ATTACH, the draining of a column and the whole
    run do not fail the assertion, and every item in the columns of the
    chart they return has its dot in [0, |rhs|], given that the items of the
    chart they start from have. *)
Theorem dot_range_safety :
  (forall item dot weight backpointers,
     Item.dot_position item = len (Rule.rhs (Item.rule item)) ->
     Item.advance item dot weight backpointers = Raise IndexError) /\
  (forall item,
     in_range item -> Item.next_symbol item <> Raise AssertionError) /\
  (forall rule position weight backpointers item,
     Item.__init__ rule 0 position weight backpointers = Ok item ->
     in_range item) /\
  (forall nonterminal position self,
     chart_in_range self ->
     stays_in_range (EarleyChart._predict nonterminal position self)) /\
  (forall item position self,
     chart_in_range self -> in_range item ->
     stays_in_range (EarleyChart._scan item position self)) /\
  (forall fuel item position self,
     chart_in_range self ->
     stays_in_range (EarleyChart._attach fuel item position self)) /\
  (forall fuel i self,
     chart_in_range self ->
     stays_in_range (EarleyChart.drain fuel i self)) /\
  (forall fuel tokens g,
     stays_in_range (EarleyChart.__init__ fuel tokens g)).
Proof.
  split; [exact advance_at_end|].
  split; [intros item Hi H; now apply next_symbol_assertion in H|].
  split; [exact predicted_item_in_range|].
  split; [exact predict_stays|].
  split; [exact scan_stays|].
  split; [exact attach_stays|].
  split; [exact drain_stays|exact init_stays].
Qed.

Lemma chart_relaxed_in_range : chart_in_range chart_relaxed.
Proof.
  assert (E : Agenda.all column_relaxed = [heavy; light])
    by (vm_compute; reflexivity).
  unfold chart_in_range, chart_relaxed. cbn [EarleyChart.cols].
  constructor; [exact (List.Forall_nil _)|].
  constructor; [|constructor; [exact (List.Forall_nil _)|constructor]].
  cbn beta. rewrite E.
  repeat constructor; vm_compute; discriminate.
Defined.

(** The theorem at the sample chart with the relaxed column. *)
Lemma dot_range_safety_witness :
  Item.advance item_b_done 2 1%float [] = Raise IndexError /\
  Item.next_symbol heavy <> Raise AssertionError /\
  stays_in_range (EarleyChart._attach 2 item_b_done 2 chart_relaxed) /\
  stays_in_range (EarleyChart._scan heavy 1 chart_relaxed) /\
  stays_in_range (EarleyChart.drain 4 1 chart_relaxed).
Proof.
  destruct dot_range_safety
    as (Hadvance & Hnext & _ & _ & Hscan & Hattach & Hdrain & _).
  assert (Hheavy : in_range heavy) by (split; vm_compute; discriminate).
  split; [apply Hadvance; reflexivity|].
  split; [apply Hnext; exact Hheavy|].
  split; [apply Hattach; exact chart_relaxed_in_range|].
  split; [apply Hscan; [exact chart_relaxed_in_range|exact Hheavy]|].
  apply Hdrain. exact chart_relaxed_in_range.
Defined.

(** ** What the engine keeps true of every column *)

Section ColumnInvariant.
(** A property of agendas that [push] and [pop] keep. *)
Variable P : Agenda.t -> Prop.
Hypothesis P_push : forall item a, P a -> P (Agenda.push item a).
Hypothesis P_pop :
  forall item a a', P a -> Agenda.pop a = Ok (item, a') -> P a'.

Lemma columns_bind (r : result EarleyChart.t)
    (f : EarleyChart.t -> result EarleyChart.t) :
  columns_hold P r ->
  (forall self, Forall P (EarleyChart.cols self) -> columns_hold P (f self)) ->
  columns_hold P (r ≫= f).
Proof. destruct r as [self|e|]; cbn; auto. Qed.

Lemma push_col_columns (position : Z) (item : Item.t)
    (self : EarleyChart.t) :
  Forall P (EarleyChart.cols self) ->
  columns_hold P (EarleyChart.push_col position item self).
Proof.
  intros Hc. unfold EarleyChart.push_col.
  destruct (getitem (EarleyChart.cols self) position) as [column| |] eqn:Hcol;
    cbn; try exact I.
  destruct (setitem_raises (EarleyChart.cols self) position
              (Agenda.push item column)) as [[n ->]| ->]; [|exact I].
  cbn. apply Forall_insert; [exact Hc|]. apply P_push.
  destruct (getitem_lookup _ _ _ Hcol) as (m & _ & Hm).
  exact (Forall_lookup_1 _ _ _ _ Hc Hm).
Qed.

Lemma predict_columns (nonterminal : string) (position : Z)
    (self : EarleyChart.t) :
  Forall P (EarleyChart.cols self) ->
  columns_hold P (EarleyChart._predict nonterminal position self).
Proof.
  intros Hc. rewrite predict_outcome.
  destruct (Grammar.expansions nonterminal (EarleyChart.grammar self)).1;
    [exact Hc|exact I].
Qed.

Lemma scan_columns (item : Item.t) (position : Z) (self : EarleyChart.t) :
  Forall P (EarleyChart.cols self) ->
  columns_hold P (EarleyChart._scan item position self).
Proof.
  intros Hc. unfold EarleyChart._scan.
  destruct (position <? len (EarleyChart.tokens self)); [|exact Hc].
  destruct (getitem (EarleyChart.tokens self) position) as [token| |]; cbn;
    try exact I.
  destruct (Item.next_symbol item) as [next| |]; cbn; try exact I.
  destruct (EarleyChart.symbol_eqb token next); [|exact Hc].
  destruct (Item.advance item _ _ _); cbn; try exact I.
  now apply push_col_columns.
Qed.

Lemma attach_from_columns (fuel j : nat) (item : Item.t) (position mid : Z)
    (self : EarleyChart.t) :
  Forall P (EarleyChart.cols self) ->
  columns_hold P (EarleyChart.attach_from fuel j item position mid self).
Proof.
  revert j self. induction fuel as [|fuel IH]; intros j self Hc; cbn;
    (destruct (getitem (EarleyChart.cols self) mid) as [column| |]; cbn;
     try exact I);
    (destruct (Agenda.all column !! j) as [customer|]; [|exact Hc]);
    [exact I|].
  destruct (Item.next_symbol customer) as [next| |]; cbn; try exact I.
  destruct (EarleyChart.symbol_eqb _ next); [|now apply IH].
  destruct (EarleyChart.extend_backpointers _ item); cbn; try exact I.
  destruct (Item.advance customer _ _ _); cbn; try exact I.
  apply columns_bind; [now apply push_col_columns|].
  intros self' Hc'. now apply IH.
Qed.

Lemma process_columns (fuel : nat) (item : Item.t) (i : Z)
    (self : EarleyChart.t) :
  Forall P (EarleyChart.cols self) ->
  columns_hold P (EarleyChart.process fuel item i self).
Proof.
  intros Hc. unfold EarleyChart.process.
  destruct (Item.next_symbol item) as [[next|]| |]; cbn; try exact I.
  - destruct (Grammar.is_nonterminal next (EarleyChart.grammar self)).
    + now apply predict_columns.
    + now apply scan_columns.
  - pose proof (attach_from_columns fuel 0 item i
                  (Item.start_position item) self Hc) as Ha.
    unfold EarleyChart._attach.
    destruct (EarleyChart.attach_from _ _ _ _ _ _) as [self'| |]; cbn;
      try exact I.
    destruct (_ && _); [|exact Ha].
    destruct (EarleyChart.found_goal_item self'); [|exact Ha].
    destruct (PrimFloat.ltb _ _); exact Ha.
Qed.

Lemma drain_columns_hold (fuel : nat) (i : Z) (self : EarleyChart.t) :
  Forall P (EarleyChart.cols self) ->
  columns_hold P (EarleyChart.drain fuel i self).
Proof.
  revert self. induction fuel as [|fuel IH]; intros self Hc; cbn;
    (destruct (getitem (EarleyChart.cols self) i) as [column| |] eqn:Hcol;
     cbn; try exact I);
    (destruct (Agenda.py_len column) as [n| |]; cbn; try exact I);
    (destruct (n =? 0); [exact Hc|]); [exact I|].
  destruct (Agenda.pop column) as [[item column']| |] eqn:Hpop; cbn;
    try exact I.
  destruct (setitem_raises (EarleyChart.cols self) i column')
    as [[m ->]| ->]; [|exact I].
  cbn. apply columns_bind; [|exact IH].
  apply process_columns. cbn. apply Forall_insert; [exact Hc|].
  destruct (getitem_lookup _ _ _ Hcol) as (k & _ & Hk).
  exact (P_pop _ _ _ (Forall_lookup_1 _ _ _ _ Hc Hk) Hpop).
Qed.

Lemma all_columns_hold (fuel n : nat) (i : Z) (self : EarleyChart.t) :
  Forall P (EarleyChart.cols self) ->
  columns_hold P (EarleyChart.drain_columns fuel n i self).
Proof.
  revert i self. induction n as [|n IH]; intros i self Hc; cbn; [exact Hc|].
  apply columns_bind; [now apply drain_columns_hold|].
  intros self' Hc'. now apply IH.
Qed.

Lemma init_columns_hold (fuel : nat) (tokens : list string) (g : Grammar.t) :
  P Agenda.__init__ ->
  columns_hold P (EarleyChart.__init__ fuel tokens g).
Proof.
  intros Hinit. unfold EarleyChart.__init__, EarleyChart._run_earley.
  apply columns_bind.
  - apply predict_columns. cbn. now apply Forall_replicate.
  - intros self Hc. now apply all_columns_hold.
Qed.
End ColumnInvariant.

(** Every column of a chart that the engine returns, from the run as a
    whole or from the draining of a column of a chart whose columns were
    built by pushes and pops, was built by pushes and pops. *)
Lemma engine_columns_built :
  (forall fuel tokens g,
     columns_hold built (EarleyChart.__init__ fuel tokens g)) /\
  (forall fuel i self,
     Forall built (EarleyChart.cols self) ->
     columns_hold built (EarleyChart.drain fuel i self)).
Proof.
  assert (Hpush : forall item a, built a -> built (Agenda.push item a)).
  { intros item a [pushed H]. exists (pushed ++ [item])%list.
    now constructor. }
  assert (Hpop : forall item a a',
            built a -> Agenda.pop a = Ok (item, a') -> built a').
  { intros item a a' [pushed H] Hp. exists pushed.
    exact (built_pop _ _ _ _ H Hp). }
  split.
  - intros fuel tokens g. apply init_columns_hold; try assumption.
    exists []. constructor.
  - intros fuel i self. now apply drain_columns_hold.
Qed.

(** ** ATTACH between two different columns *)

Lemma chart_eta (self : EarleyChart.t) :
  EarleyChart.mk (EarleyChart.tokens self) (EarleyChart.grammar self)
    (EarleyChart.cols self) (EarleyChart.found_goal_item self) = self.
Proof. now destruct self. Qed.

Lemma attach_from_fold (fuel j : nat) (item : Item.t) (position mid : Z)
    (self : EarleyChart.t) (customers target : Agenda.t) :
  0 <= mid -> 0 <= position -> mid <> position ->
  EarleyChart.cols self !! Z.to_nat mid = Some customers ->
  EarleyChart.cols self !! Z.to_nat position = Some target ->
  (length (Agenda.all customers) - j <= fuel)%nat ->
  EarleyChart.attach_from fuel j item position mid self
  = (target' ← attach_all (drop j (Agenda.all customers)) item target;
     Ok (EarleyChart.mk (EarleyChart.tokens self) (EarleyChart.grammar self)
           (<[Z.to_nat position := target']> (EarleyChart.cols self))
           (EarleyChart.found_goal_item self))).
Proof.
  intros Hmid Hpos Hne. revert j self target.
  induction fuel as [|fuel IH]; intros j self target Hcust Htarget Hfuel.
  - cbn. rewrite (getitem_nonneg _ _ _ Hmid Hcust). cbn.
    rewrite (lookup_ge_None_2 _ j) by lia.
    rewrite drop_ge by lia. cbn.
    now rewrite (list_insert_id _ _ _ Htarget), chart_eta.
  - cbn. rewrite (getitem_nonneg _ _ _ Hmid Hcust). cbn.
    destruct (Agenda.all customers !! j) as [customer|] eqn:Hj.
    + rewrite (drop_S _ _ _ Hj). cbn.
      destruct (Item.next_symbol customer) as [next| |] eqn:Hnext; cbn;
        try reflexivity.
      destruct (EarleyChart.symbol_eqb (Rule.lhs (Item.rule item)) next)
        eqn:Hsym.
      * destruct (Item.backpointers customer) as [bps|]; cbn;
          [|reflexivity].
        destruct next as [next|]; [|discriminate].
        rewrite (advance_at_symbol _ _ _ _ _ Hnext). cbn.
        rewrite (push_col_nonneg _ _ _ _ Hpos Htarget). cbn.
        rewrite (IH (S j) _
                   (Agenda.push (attached customer item bps) target)); cbn.
        -- destruct (attach_all _ item _) as [target'| |]; cbn;
             [now rewrite list_insert_insert_eq|reflexivity..].
        -- rewrite list_lookup_insert_ne by lia. exact Hcust.
        -- apply list_lookup_insert_eq. now apply lookup_lt_Some in Htarget.
        -- lia.
      * apply IH; [exact Hcust|exact Htarget|lia].
    + rewrite drop_ge by (apply lookup_ge_None_1 in Hj; lia). cbn.
      now rewrite (list_insert_id _ _ _ Htarget), chart_eta.
Qed.

(** X2.  When the complete item started in another column than the one it
    is attached in, ATTACH with a step budget of at least the number of
    items in the customers' column returns, and it is the fold over those
    customers: each one whose next symbol is the lhs of the item is
    advanced by one, with the sum of the two weights and the customer's
    back-pointers followed by the item, and pushed into the current column;
    a customer that waits for the lhs but has no back-pointer list raises
    [TypeError]. *)
Theorem attach_is_fold (fuel : nat) (item : Item.t) (position : Z)
    (self : EarleyChart.t) (customers target : Agenda.t) :
  0 <= Item.start_position item -> 0 <= position ->
  Item.start_position item <> position ->
  EarleyChart.cols self !! Z.to_nat (Item.start_position item)
    = Some customers ->
  EarleyChart.cols self !! Z.to_nat position = Some target ->
  (length (Agenda.all customers) <= fuel)%nat ->
  EarleyChart._attach fuel item position self
  = (target' ← attach_all (Agenda.all customers) item target;
     Ok (EarleyChart.mk (EarleyChart.tokens self) (EarleyChart.grammar self)
           (<[Z.to_nat position := target']> (EarleyChart.cols self))
           (EarleyChart.found_goal_item self))).
Proof.
  intros Hmid Hpos Hne Hcust Htarget Hfuel. unfold EarleyChart._attach.
  rewrite (attach_from_fold _ _ _ _ _ _ customers target); auto.
  lia.
Qed.

(** The theorem at the sample chart: [B -> b .] from column 1 attached in
    column 2. *)
Lemma attach_is_fold_witness :
  EarleyChart._attach 2 item_b_done 2 chart_relaxed
  = (target' ← attach_all (Agenda.all column_relaxed) item_b_done
                  Agenda.__init__;
     Ok (EarleyChart.mk (EarleyChart.tokens chart_relaxed)
           (EarleyChart.grammar chart_relaxed)
           (<[Z.to_nat 2 := target']> (EarleyChart.cols chart_relaxed))
           (EarleyChart.found_goal_item chart_relaxed))).
Proof.
  apply (attach_is_fold 2 item_b_done 2 chart_relaxed column_relaxed
           Agenda.__init__).
  - vm_compute. discriminate.
  - vm_compute. discriminate.
  - vm_compute. discriminate.
  - reflexivity.
  - reflexivity.
  - vm_compute. apply le_n.
Defined.

(** ** A loaded grammar, before any lookup of a terminal *)

Lemma add_rules_from_lines_keys (py_float : string -> option float)
    (libm_log2 : float -> float) (lines : list string) (g g' : Grammar.t) :
  keys_have_rules g ->
  Grammar.add_rules_from_lines py_float libm_log2 lines g = Ok g' ->
  keys_have_rules g'.
Proof.
  revert g. induction lines as [|line lines IH]; intros g Hkeys; cbn.
  - now intros [= <-].
  - destruct (Grammar.add_rule_from_line py_float libm_log2 line g)
      as [g1| |] eqn:E; cbn; try discriminate.
    apply IH. exact (add_rule_from_line_keys _ _ _ _ _ Hkeys E).
Qed.

(** X1.  In a grammar that the loader has built from rule lines, starting
    from no rules, [is_nonterminal] is true of a symbol exactly when
    [expansions] of that symbol is not empty. *)
Theorem loaded_grammar_nonterminals (py_float : string -> option float)
    (libm_log2 : float -> float) (lines : list string) (start : string)
    (g : Grammar.t) (s : string) :
  Grammar.add_rules_from_lines py_float libm_log2 lines (Grammar.mk start ∅)
  = Ok g ->
  Grammar.is_nonterminal s g = true <-> (Grammar.expansions s g).1 <> [].
Proof.
  intros Hload. apply is_nonterminal_iff_rules.
  refine (add_rules_from_lines_keys _ _ _ _ _ _ Hload).
  intros s' rules H. cbn in H. rewrite lookup_empty in H. discriminate.
Qed.

(** The theorem at the grammar of the single-rule scenario. *)
Lemma loaded_grammar_nonterminals_witness :
  Grammar.is_nonterminal "ROOT" grammar_root_a = true <->
  (Grammar.expansions "ROOT" grammar_root_a).1 <> [].
Proof.
  apply (loaded_grammar_nonterminals sample_float sample_log2
           ["1.0" ++ tab ++ "ROOT" ++ tab ++ "a"] "ROOT").
  vm_compute. reflexivity.
Defined.

(** ** Agenda: the queue *)

Lemma push_items (item : Item.t) (a : Agenda.t) :
  Agenda._next (Agenda.push item a) = Agenda._next a /\
  (Agenda.all (Agenda.push item a) = Agenda.all a \/
   Agenda.all (Agenda.push item a) = (Agenda.all a ++ [item])%list).
Proof.
  unfold Agenda.push, Agenda.all.
  destruct (Agenda.dict_get _ _) as [existing|]; cbn; [|auto].
  destruct (PrimFloat.ltb _ _); cbn; auto.
Qed.

Lemma pop_outcome (a : Agenda.t) :
  0 <= Agenda._next a <= len (Agenda._items a) ->
  match Agenda.all a !! Z.to_nat (Agenda._next a) with
  | Some item =>
      Agenda.pop a
      = Ok (item, Agenda.mk (Agenda._items a) (Agenda._index a)
                    (Agenda._next a + 1))
  | None => Agenda.pop a = Raise IndexError
  end.
Proof.
  intros [H0 H1]. unfold Agenda.pop, Agenda.py_len, Agenda.__len__, Agenda.all.
  destruct (Z.ltb_spec (len (Agenda._items a) - Agenda._next a) 0); [lia|].
  cbn. destruct (Agenda._items a !! Z.to_nat (Agenda._next a)) as [item|] eqn:E.
  - pose proof (lookup_lt_Some _ _ _ E) as Hlt.
    destruct (Z.eqb_spec (len (Agenda._items a) - Agenda._next a) 0);
      [unfold len in *; lia|].
    now rewrite (getitem_nonneg _ _ _ H0 E).
  - apply lookup_ge_None_1 in E.
    destruct (Z.eqb_spec (len (Agenda._items a) - Agenda._next a) 0);
      [reflexivity|unfold len in *; lia].
Qed.

(** In an agenda built by pushes and pops, [_next] stays between 0 and the
    number of items. *)
Lemma built_next_bounds (pushed : list Item.t) (a : Agenda.t) :
  built_by pushed a -> 0 <= Agenda._next a <= len (Agenda._items a).
Proof.
  induction 1 as [|pushed a item _ IH|pushed a item a' _ IH Hpop].
  - unfold len. cbn. lia.
  - destruct (push_items item a) as [-> [E|E]]; unfold Agenda.all in E;
      rewrite E; [exact IH|].
    unfold len in *. rewrite length_app. cbn. lia.
  - pose proof (pop_outcome a IH) as Ho. rewrite Hpop in Ho.
    destruct (Agenda.all a !! Z.to_nat (Agenda._next a)) eqn:E;
      [|discriminate].
    injection Ho as _ ->. cbn. apply lookup_lt_Some in E.
    unfold Agenda.all, len in *. lia.
Qed.

Lemma pops_bounded (n : nat) (a : Agenda.t) :
  0 <= Agenda._next a <= len (Agenda._items a) ->
  (Z.of_nat n <= Agenda.__len__ a ->
   pops n a
   = Ok (take n (waiting a),
         Agenda.mk (Agenda._items a) (Agenda._index a)
           (Agenda._next a + Z.of_nat n))) /\
  (Agenda.__len__ a < Z.of_nat n -> pops n a = Raise IndexError).
Proof.
  revert a. induction n as [|n IH]; intros a Hb.
  - split; [|unfold Agenda.__len__; lia].
    intros _. cbn. rewrite Z.add_0_r. now destruct a.
  - pose proof (pop_outcome a Hb) as Ho.
    unfold waiting, Agenda.__len__, Agenda.all in *.
    destruct (Agenda._items a !! Z.to_nat (Agenda._next a)) as [item|] eqn:E.
    + pose proof (lookup_lt_Some _ _ _ E) as Hlt.
      cbn [pops]. rewrite Ho. cbn.
      destruct (IH (Agenda.mk (Agenda._items a) (Agenda._index a)
                      (Agenda._next a + 1))) as [IH1 IH2].
      { cbn. unfold len in *. lia. }
      cbn in IH1, IH2. split; intros Hn.
      * rewrite IH1 by lia. cbn.
        rewrite (drop_S _ _ _ E). cbn.
        replace (Z.to_nat (Agenda._next a + 1))
          with (S (Z.to_nat (Agenda._next a))) by lia.
        do 3 f_equal. lia.
      * rewrite IH2 by lia. reflexivity.
    + apply lookup_ge_None_1 in E. split; intros Hn.
      * unfold len in *. lia.
      * cbn [pops]. rewrite Ho. reflexivity.
Qed.

(** X3.  In an agenda built by pushes and pops, [n] pops in a row succeed
    exactly when at least [n] items are waiting; they return the first [n]
    waiting items in the order in which they were appended and only move
    [_next]; with fewer items waiting the pops end in [IndexError]. *)
Theorem pops_are_fifo (pushed : list Item.t) (a : Agenda.t) (n : nat) :
  built_by pushed a ->
  (Z.of_nat n <= Agenda.__len__ a ->
   pops n a
   = Ok (take n (waiting a),
         Agenda.mk (Agenda._items a) (Agenda._index a)
           (Agenda._next a + Z.of_nat n))) /\
  (Agenda.__len__ a < Z.of_nat n -> pops n a = Raise IndexError).
Proof. intros H. apply pops_bounded. exact (built_next_bounds _ _ H). Qed.

(** The theorem at the relaxed column: two pops return [heavy], then
    [light]. *)
Lemma pops_are_fifo_witness :
  (Z.of_nat 2 <= Agenda.__len__ column_relaxed ->
   pops 2 column_relaxed
   = Ok (take 2 (waiting column_relaxed),
         Agenda.mk (Agenda._items column_relaxed)
           (Agenda._index column_relaxed)
           (Agenda._next column_relaxed + Z.of_nat 2))) /\
  (Agenda.__len__ column_relaxed < Z.of_nat 2 ->
   pops 2 column_relaxed = Raise IndexError).
Proof.
  apply (pops_are_fifo [heavy; light] column_relaxed 2).
  exact column_relaxed_built.
Defined.

(** X4.  The list that [all] returns is a subsequence of the pushes, in
    push order: the agenda never reorders, repeats or invents an item, and
    the number of waiting items is never negative. *)
Theorem all_is_subsequence_of_pushes (pushed : list Item.t) (a : Agenda.t) :
  built_by pushed a ->
  sublist (Agenda.all a) pushed /\ 0 <= Agenda.__len__ a.
Proof.
  intros H. split.
  - induction H as [|pushed a item _ IH|pushed a item a' _ IH Hpop].
    + constructor.
    + destruct (push_items item a) as [_ [-> | ->]].
      * now apply sublist_inserts_r.
      * now apply sublist_app.
    + destruct (pop_keeps_items _ _ _ Hpop) as [E _].
      unfold Agenda.all in *. now rewrite E.
  - pose proof (built_next_bounds _ _ H). unfold Agenda.__len__. lia.
Qed.

(** The theorem at the relaxed column. *)
Lemma all_is_subsequence_of_pushes_witness :
  sublist (Agenda.all column_relaxed) [heavy; light] /\
  0 <= Agenda.__len__ column_relaxed.
Proof.
  apply (all_is_subsequence_of_pushes [heavy; light] column_relaxed).
  exact column_relaxed_built.
Defined.

Lemma push_moved_next (item : Item.t) (a : Agenda.t) (n : Z) :
  Agenda.push item (Agenda.mk (Agenda._items a) (Agenda._index a) n)
  = Agenda.mk (Agenda._items (Agenda.push item a))
      (Agenda._index (Agenda.push item a)) n.
Proof.
  unfold Agenda.push. cbn.
  destruct (Agenda.dict_get _ _) as [existing|]; cbn; [|reflexivity].
  destruct (PrimFloat.ltb _ _); reflexivity.
Qed.

(** X5.  A push does not disturb the queue: in an agenda built by pushes
    and pops, the item that [pop] returns is the same whether another item
    is pushed before or after the pop, and the agenda left is the same. *)
Theorem push_commutes_with_pop (pushed : list Item.t) (a a' : Agenda.t)
    (item popped : Item.t) :
  built_by pushed a ->
  Agenda.pop a = Ok (popped, a') ->
  Agenda.pop (Agenda.push item a) = Ok (popped, Agenda.push item a').
Proof.
  intros Hb Hpop. pose proof (built_next_bounds _ _ Hb) as Hn.
  pose proof (pop_outcome a Hn) as Ho. rewrite Hpop in Ho.
  destruct (Agenda.all a !! Z.to_nat (Agenda._next a)) as [x|] eqn:E;
    [|discriminate].
  injection Ho as -> ->.
  rewrite push_moved_next.
  destruct (push_items item a) as [Hnext Hall].
  assert (E' : Agenda.all (Agenda.push item a)
               !! Z.to_nat (Agenda._next (Agenda.push item a)) = Some x).
  { rewrite Hnext. destruct Hall as [-> | ->]; [exact E|].
    now apply lookup_app_l_Some. }
  pose proof (pop_outcome (Agenda.push item a)) as Ho.
  rewrite E' in Ho. rewrite Ho, Hnext; [reflexivity|].
  rewrite Hnext. unfold Agenda.all in *.
  apply lookup_lt_Some in E'. rewrite Hnext in E'. unfold len. lia.
Qed.

(** The theorem at the relaxed column and a third push. *)
Lemma push_commutes_with_pop_witness :
  Agenda.pop (Agenda.push item_b_done column_relaxed)
  = Ok (heavy,
        Agenda.push item_b_done
          (Agenda.mk (Agenda._items column_relaxed)
             (Agenda._index column_relaxed) 1)).
Proof.
  apply (push_commutes_with_pop [heavy; light] column_relaxed).
  - exact column_relaxed_built.
  - reflexivity.
Defined.

(** ** Grammar: what a lookup and a rule line change *)

(** What one call of [expansions] changes and what it keeps. *)
Lemma lookup_effect (s t : string) (g : Grammar.t) :
  (Grammar.expansions t (Grammar.expansions s g).2).1
  = (Grammar.expansions t g).1 /\
  Grammar.start_symbol (Grammar.expansions s g).2 = Grammar.start_symbol g /\
  Grammar.expansions s (Grammar.expansions s g).2
  = ((Grammar.expansions s g).1, (Grammar.expansions s g).2) /\
  Grammar.is_nonterminal t (Grammar.expansions s g).2
  = Grammar.is_nonterminal t g || String.eqb t s.
Proof.
  rewrite !expansions_rules.
  unfold Grammar.expansions, Grammar.is_nonterminal.
  destruct (Grammar._expansions g !! s) as [rules|] eqn:Es; cbn.
  - rewrite Es. repeat split.
    destruct (String.eqb_spec t s) as [->|Hne].
    + rewrite orb_true_r. apply bool_decide_eq_true. rewrite Es. eauto.
    + now rewrite orb_false_r.
  - rewrite lookup_insert_eq. repeat split.
    + destruct (decide (s = t)) as [<-|Hne].
      * now rewrite lookup_insert_eq, Es.
      * now rewrite lookup_insert_ne.
    + destruct (String.eqb_spec t s) as [->|Hne].
      * rewrite orb_true_r. apply bool_decide_eq_true.
        rewrite lookup_insert_eq. eauto.
      * rewrite orb_false_r, lookup_insert_ne by congruence. reflexivity.
Qed.

(** X6.  Calls of [expansions], however many, change no answer of
    [expansions] and not the start symbol; what they change is
    [is_nonterminal], which afterwards is true of every symbol that was
    looked up and as before of every other symbol. *)
Theorem lookup_keeps_rules (looked_up : list string) (t : string)
    (g : Grammar.t) :
  (Grammar.expansions t (lookups looked_up g)).1 = (Grammar.expansions t g).1 /\
  Grammar.start_symbol (lookups looked_up g) = Grammar.start_symbol g /\
  Grammar.is_nonterminal t (lookups looked_up g)
  = Grammar.is_nonterminal t g || existsb (String.eqb t) looked_up.
Proof.
  revert g. induction looked_up as [|s rest IH]; intros g.
  - cbn. now rewrite orb_false_r.
  - cbn [lookups foldl existsb]. fold (lookups rest (Grammar.expansions s g).2).
    destruct (IH (Grammar.expansions s g).2) as (Hr & Hs & Hn).
    destruct (lookup_effect s t g) as (Hr' & Hs' & _ & Hn').
    rewrite Hr, Hs, Hn, Hr', Hs', Hn'. now rewrite orb_assoc.
Qed.







Lemma expansions_with_rule (s : string) (g : Grammar.t) (rule : Rule.t) :
  (Grammar.expansions s (with_rule g rule)).1
  = ((Grammar.expansions s g).1
     ++ (if String.eqb s (Rule.lhs rule) then [rule] else []))%list.
Proof.
  rewrite !expansions_rules. unfold with_rule. cbn.
  destruct (String.eqb_spec s (Rule.lhs rule)) as [->|Hne].
  - now rewrite lookup_insert_eq.
  - rewrite lookup_insert_ne by congruence. now rewrite app_nil_r.
Qed.



Lemma add_rule_from_line_result (py_float : string -> option float)
    (libm_log2 : float -> float) (line : string) (g g' : Grammar.t) :
  Grammar.add_rule_from_line py_float libm_log2 line g = Ok g' ->
  g' = g \/ exists rule, g' = with_rule g rule.
Proof.
  unfold Grammar.add_rule_from_line. rewrite split_char_head. cbn.
  destruct (String.eqb _ _); [intros [= <-]; auto|].
  destruct (split_char _ _) as [|_prob [|lhs [|_rhs [|]]]]; try discriminate.
  destruct (py_float _prob); cbn; [|discriminate].
  destruct (Grammar.math_log2 libm_log2 f) as [l| |]; cbn; try discriminate.
  intros [= <-]. right.
  now exists (Rule.mk lhs (split_ws _rhs) (PrimFloat.opp l)).
Qed.

(** X9.  Loading only appends: when the lines of a file load, the rules
    that a symbol had before are a prefix of the rules it has afterwards,
    and the start symbol is the same. *)
Theorem loading_only_appends (py_float : string -> option float)
    (libm_log2 : float -> float) (lines : list string) (g g' : Grammar.t)
    (s : string) :
  Grammar.add_rules_from_lines py_float libm_log2 lines g = Ok g' ->
  (Grammar.expansions s g).1 `prefix_of` (Grammar.expansions s g').1 /\
  Grammar.start_symbol g' = Grammar.start_symbol g.
Proof.
  revert g. induction lines as [|line lines IH]; intros g; cbn.
  - intros [= <-]. split; reflexivity.
  - destruct (Grammar.add_rule_from_line py_float libm_log2 line g)
      as [g1| |] eqn:E; cbn; try discriminate.
    intros Hrest. destruct (IH _ Hrest) as [Hp Hs].
    destruct (add_rule_from_line_result _ _ _ _ _ E) as [->|[rule ->]];
      [auto|].
    split; [|exact Hs].
    etrans; [|exact Hp]. rewrite expansions_with_rule.
    now apply prefix_app_r.
Qed.

(** The theorem at the file of the single-rule scenario, loaded on top of
    the grammar with [T -> a b]. *)
Lemma loading_only_appends_witness :
  (Grammar.expansions "T" grammar_t).1
    `prefix_of`
    (Grammar.expansions "T"
       (with_rule grammar_t rule_root_a)).1 /\
  Grammar.start_symbol (with_rule grammar_t rule_root_a)
  = Grammar.start_symbol grammar_t.
Proof.
  apply (loading_only_appends sample_float sample_log2
           ["1.0" ++ tab ++ "ROOT" ++ tab ++ "a"]).
  vm_compute. reflexivity.
Defined.

(** ** What the steps of the engine leave alone *)

Section StepRelation.
(** A relation between the chart before and after a step that holds when
    columns are replaced one for one, when the grammar is the one after a
    lookup, and when a first or a strictly lighter goal item is recorded. *)
Variable R : EarleyChart.t -> EarleyChart.t -> Prop.
Hypothesis R_refl : forall self, R self self.
Hypothesis R_trans :
  forall self1 self2 self3, R self1 self2 -> R self2 self3 -> R self1 self3.
Hypothesis R_cols :
  forall self n column,
    R self
      (EarleyChart.mk (EarleyChart.tokens self) (EarleyChart.grammar self)
         (<[n := column]> (EarleyChart.cols self))
         (EarleyChart.found_goal_item self)).
Hypothesis R_grammar :
  forall self s,
    R self
      (EarleyChart.mk (EarleyChart.tokens self)
         (Grammar.expansions s (EarleyChart.grammar self)).2
         (EarleyChart.cols self) (EarleyChart.found_goal_item self)).
Hypothesis R_goal :
  forall self item,
    match EarleyChart.found_goal_item self with
    | None => True
    | Some goal =>
        PrimFloat.ltb (Item.weight item) (Item.weight goal) = true
    end ->
    R self
      (EarleyChart.mk (EarleyChart.tokens self) (EarleyChart.grammar self)
         (EarleyChart.cols self) (Some item)).

Lemma keeps_bind (self : EarleyChart.t) (r : result EarleyChart.t)
    (f : EarleyChart.t -> result EarleyChart.t) :
  step_keeps R self r ->
  (forall self', step_keeps R self' (f self')) ->
  step_keeps R self (r ≫= f).
Proof.
  destruct r as [self'| |]; cbn; auto. intros H Hf.
  specialize (Hf self'). destruct (f self'); cbn in *; eauto.
Qed.

Lemma push_col_keeps (position : Z) (item : Item.t) (self : EarleyChart.t) :
  step_keeps R self (EarleyChart.push_col position item self).
Proof.
  unfold EarleyChart.push_col.
  destruct (getitem (EarleyChart.cols self) position) as [column| |]; cbn;
    try exact I.
  destruct (setitem_raises (EarleyChart.cols self) position
              (Agenda.push item column)) as [[n ->]| ->]; [|exact I].
  cbn. apply R_cols.
Qed.

Lemma predict_keeps (nonterminal : string) (position : Z)
    (self : EarleyChart.t) :
  step_keeps R self (EarleyChart._predict nonterminal position self).
Proof.
  rewrite predict_outcome.
  destruct (Grammar.expansions nonterminal (EarleyChart.grammar self)).1;
    [apply R_grammar|exact I].
Qed.

Lemma scan_keeps (item : Item.t) (position : Z) (self : EarleyChart.t) :
  step_keeps R self (EarleyChart._scan item position self).
Proof.
  unfold EarleyChart._scan.
  destruct (position <? len (EarleyChart.tokens self)); [|apply R_refl].
  destruct (getitem (EarleyChart.tokens self) position) as [token| |]; cbn;
    try exact I.
  destruct (Item.next_symbol item) as [next| |]; cbn; try exact I.
  destruct (EarleyChart.symbol_eqb token next); [|apply R_refl].
  destruct (Item.advance item _ _ _); cbn; try exact I.
  apply push_col_keeps.
Qed.

Lemma attach_from_keeps (fuel j : nat) (item : Item.t) (position mid : Z)
    (self : EarleyChart.t) :
  step_keeps R self (EarleyChart.attach_from fuel j item position mid self).
Proof.
  revert j self. induction fuel as [|fuel IH]; intros j self; cbn;
    (destruct (getitem (EarleyChart.cols self) mid) as [column| |]; cbn;
     try exact I);
    (destruct (Agenda.all column !! j) as [customer|]; [|apply R_refl]);
    [exact I|].
  destruct (Item.next_symbol customer) as [next| |]; cbn; try exact I.
  destruct (EarleyChart.symbol_eqb _ next); [|apply IH].
  destruct (EarleyChart.extend_backpointers _ item); cbn; try exact I.
  destruct (Item.advance customer _ _ _); cbn; try exact I.
  apply keeps_bind; [apply push_col_keeps|]. intros self'. apply IH.
Qed.

Lemma process_keeps (fuel : nat) (item : Item.t) (i : Z)
    (self : EarleyChart.t) :
  step_keeps R self (EarleyChart.process fuel item i self).
Proof.
  unfold EarleyChart.process.
  destruct (Item.next_symbol item) as [[next|]| |]; cbn; try exact I.
  - destruct (Grammar.is_nonterminal next (EarleyChart.grammar self)).
    + apply predict_keeps.
    + apply scan_keeps.
  - pose proof (attach_from_keeps fuel 0 item i (Item.start_position item)
                  self) as Ha.
    unfold EarleyChart._attach.
    destruct (EarleyChart.attach_from _ _ _ _ _ _) as [self'| |]; cbn;
      try exact I.
    cbn in Ha. destruct (_ && _); [|exact Ha].
    destruct (EarleyChart.found_goal_item self') as [goal|] eqn:Hg.
    + destruct (PrimFloat.ltb (Item.weight item) (Item.weight goal)) eqn:Hlt;
        [|exact Ha].
      cbn. apply (R_trans _ _ _ Ha). apply R_goal. now rewrite Hg.
    + cbn. apply (R_trans _ _ _ Ha). apply R_goal. now rewrite Hg.
Qed.

Lemma drain_keeps (fuel : nat) (i : Z) (self : EarleyChart.t) :
  step_keeps R self (EarleyChart.drain fuel i self).
Proof.
  revert self. induction fuel as [|fuel IH]; intros self; cbn;
    (destruct (getitem (EarleyChart.cols self) i) as [column| |]; cbn;
     try exact I);
    (destruct (Agenda.py_len column) as [n| |]; cbn; try exact I);
    (destruct (n =? 0); [apply R_refl|]); [exact I|].
  destruct (Agenda.pop column) as [[item column']| |]; cbn; try exact I.
  destruct (setitem_raises (EarleyChart.cols self) i column')
    as [[m ->]| ->]; [|exact I].
  cbn.
  pose proof (R_cols self m column') as H1.
  pose proof (process_keeps fuel item i
                (EarleyChart.mk (EarleyChart.tokens self)
                   (EarleyChart.grammar self)
                   (<[m := column']> (EarleyChart.cols self))
                   (EarleyChart.found_goal_item self))) as H2.
  destruct (EarleyChart.process _ _ _ _) as [self1| |]; cbn; try exact I.
  cbn in H2. pose proof (IH self1) as H3.
  destruct (EarleyChart.drain fuel i self1); cbn in *; eauto.
Qed.

Lemma drain_columns_keeps (fuel n : nat) (i : Z) (self : EarleyChart.t) :
  step_keeps R self (EarleyChart.drain_columns fuel n i self).
Proof.
  revert i self. induction n as [|n IH]; intros i self; cbn;
    [apply R_refl|].
  apply keeps_bind; [apply drain_keeps|]. intros self'. apply IH.
Qed.
End StepRelation.

Lemma same_frame_refl (self : EarleyChart.t) : same_frame self self.
Proof. unfold same_frame. auto. Qed.

Lemma same_frame_trans (self1 self2 self3 : EarleyChart.t) :
  same_frame self1 self2 -> same_frame self2 self3 -> same_frame self1 self3.
Proof.
  unfold same_frame. intros (A1 & A2 & A3 & A4) (B1 & B2 & B3 & B4).
  repeat split; try congruence.
Qed.

Lemma same_frame_cols (self : EarleyChart.t) (n : nat) (column : Agenda.t) :
  same_frame self
    (EarleyChart.mk (EarleyChart.tokens self) (EarleyChart.grammar self)
       (<[n := column]> (EarleyChart.cols self))
       (EarleyChart.found_goal_item self)).
Proof. unfold same_frame. cbn. rewrite length_insert. auto. Qed.

Lemma same_frame_grammar (self : EarleyChart.t) (s : string) :
  same_frame self
    (EarleyChart.mk (EarleyChart.tokens self)
       (Grammar.expansions s (EarleyChart.grammar self)).2
       (EarleyChart.cols self) (EarleyChart.found_goal_item self)).
Proof.
  unfold same_frame. cbn. split; [reflexivity|]. split; [reflexivity|].
  split; [apply (lookup_effect s s)|].
  intros t. apply (lookup_effect s t).
Qed.

Lemma same_frame_goal (self : EarleyChart.t) (item : Item.t) :
  same_frame self
    (EarleyChart.mk (EarleyChart.tokens self) (EarleyChart.grammar self)
       (EarleyChart.cols self) (Some item)).
Proof. unfold same_frame. cbn. auto. Qed.

(** X10.  Draining a column leaves the frame of the chart alone: when it
    returns, the tokens, the number of columns, the start symbol and the
    rule list of every symbol are what they were. *)
Theorem drain_keeps_frame (fuel : nat) (i : Z) (self self' : EarleyChart.t) :
  EarleyChart.drain fuel i self = Ok self' -> same_frame self self'.
Proof.
  intros H.
  pose proof (drain_keeps same_frame same_frame_refl same_frame_trans
                same_frame_cols same_frame_grammar
                (fun self item _ => same_frame_goal self item)
                fuel i self) as Hk.
  now rewrite H in Hk.
Qed.

(** The theorem at column 0 of the seeded chart, where the one item is
    scanned over [a]. *)
Lemma drain_keeps_frame_witness :
  exists self',
    EarleyChart.drain 1 0 chart_ab_seeded = Ok self' /\
    same_frame chart_ab_seeded self'.
Proof.
  destruct (EarleyChart.drain 1 0 chart_ab_seeded) as [self'| |] eqn:E;
    [|vm_compute in E; discriminate..].
  exists self'. split; [reflexivity|].
  exact (drain_keeps_frame 1 0 _ _ E).
Defined.

(** ** The goal item *)

Lemma same_goal_attach (fuel : nat) (item : Item.t) (position : Z)
    (self : EarleyChart.t) :
  step_keeps (fun s s' => same_goal s s' /\ same_frame s s') self
    (EarleyChart._attach fuel item position self).
Proof.
  apply attach_from_keeps.
  - intros s. split; [reflexivity|apply same_frame_refl].
  - intros s1 s2 s3 [G1 F1] [G2 F2]. split.
    + unfold same_goal in *. congruence.
    + exact (same_frame_trans _ _ _ F1 F2).
  - intros s n c. split; [reflexivity|apply same_frame_cols].
Qed.

(** X11.  Goal selection.  Handling one popped item either leaves the
    recorded goal item as it was, or records the popped item itself; the
    latter only when the item is complete, its lhs is the start symbol, it
    starts at 0, the column is the last one, and no goal was recorded
    before or the recorded one is strictly heavier. *)
Theorem goal_selection (fuel : nat) (item : Item.t) (i : Z)
    (self self' : EarleyChart.t) :
  EarleyChart.process fuel item i self = Ok self' ->
  EarleyChart.found_goal_item self' = EarleyChart.found_goal_item self \/
  (EarleyChart.found_goal_item self' = Some item /\
   Item.next_symbol item = Ok None /\
   Rule.lhs (Item.rule item)
   = Grammar.start_symbol (EarleyChart.grammar self) /\
   Item.start_position item = 0 /\
   i = len (EarleyChart.tokens self) /\
   match EarleyChart.found_goal_item self with
   | None => True
   | Some goal => PrimFloat.ltb (Item.weight item) (Item.weight goal) = true
   end).
Proof.
  unfold EarleyChart.process.
  destruct (Item.next_symbol item) as [[next|]| |] eqn:Hnext; cbn;
    try discriminate.
  - intros H. left.
    destruct (Grammar.is_nonterminal next (EarleyChart.grammar self)).
    + pose proof (predict_keeps same_goal
                    (fun s n => eq_refl) next i self) as Hk.
      now rewrite H in Hk.
    + pose proof (scan_keeps same_goal (fun s => eq_refl)
                    (fun s n c => eq_refl) item i self) as Hk.
      now rewrite H in Hk.
  - pose proof (same_goal_attach fuel item i self) as Ha.
    destruct (EarleyChart._attach fuel item i self) as [self1| |]; cbn;
      try discriminate.
    destruct Ha as [Hg (Ht & _ & Hs & _)]. unfold same_goal in Hg.
    destruct (_ && _) eqn:Hcond; [|intros [= <-]; auto].
    apply andb_true_iff in Hcond as [[H1 H2]%andb_true_iff H3].
    apply String.eqb_eq in H1. apply Z.eqb_eq in H2, H3.
    rewrite Hs in H1. rewrite Ht in H3. rewrite Hg.
    destruct (EarleyChart.found_goal_item self) as [goal|].
    + destruct (PrimFloat.ltb (Item.weight item) (Item.weight goal)) eqn:Hlt;
        intros [= <-]; cbn; auto 10.
    + intros [= <-]. cbn. auto 10.
Qed.

(** The theorem at [T -> a b .] handled in the last column of the seeded
    chart: it becomes the goal item. *)
Lemma goal_selection_witness :
  exists self',
    EarleyChart.process 1 item_t_2 2 chart_ab_seeded = Ok self' /\
    (EarleyChart.found_goal_item self'
     = EarleyChart.found_goal_item chart_ab_seeded \/
     (EarleyChart.found_goal_item self' = Some item_t_2 /\
      Item.next_symbol item_t_2 = Ok None /\
      Rule.lhs (Item.rule item_t_2)
      = Grammar.start_symbol (EarleyChart.grammar chart_ab_seeded) /\
      Item.start_position item_t_2 = 0 /\
      2 = len (EarleyChart.tokens chart_ab_seeded) /\
      match EarleyChart.found_goal_item chart_ab_seeded with
      | None => True
      | Some goal =>
          PrimFloat.ltb (Item.weight item_t_2) (Item.weight goal) = true
      end)).
Proof.
  destruct (EarleyChart.process 1 item_t_2 2 chart_ab_seeded)
    as [self'| |] eqn:E; [|vm_compute in E; discriminate..].
  exists self'. split; [reflexivity|].
  exact (goal_selection 1 item_t_2 2 _ _ E).
Defined.




(** X13.  When the draining of a column returns, no item is waiting in
    that column, whatever was pushed into it on the way. *)
Theorem drain_leaves_column_empty (fuel : nat) (i : Z)
    (self self' : EarleyChart.t) :
  EarleyChart.drain fuel i self = Ok self' ->
  exists column,
    getitem (EarleyChart.cols self') i = Ok column /\
    Agenda.__len__ column = 0.
Proof.
  revert self. induction fuel as [|fuel IH]; intros self; cbn;
    (destruct (getitem (EarleyChart.cols self) i) as [column| |] eqn:Hcol;
     cbn; try discriminate);
    unfold Agenda.py_len;
    (destruct (Agenda.__len__ column <? 0); cbn; try discriminate);
    (destruct (Z.eqb_spec (Agenda.__len__ column) 0) as [Hz|_];
     [intros [= <-]; eauto|]); try discriminate.
  destruct (Agenda.pop column) as [[item column']| |]; cbn; try discriminate.
  destruct (setitem _ _ _) as [cols'| |]; cbn; try discriminate.
  destruct (EarleyChart.process _ _ _ _) as [self1| |]; cbn;
    try discriminate.
  apply IH.
Qed.

(** The theorem at column 0 of the seeded chart. *)
Lemma drain_leaves_column_empty_witness :
  exists self',
    EarleyChart.drain 1 0 chart_ab_seeded = Ok self' /\
    exists column,
      getitem (EarleyChart.cols self') 0 = Ok column /\
      Agenda.__len__ column = 0.
Proof.
  destruct (EarleyChart.drain 1 0 chart_ab_seeded) as [self'| |] eqn:E;
    [|vm_compute in E; discriminate..].
  exists self'. split; [reflexivity|].
  exact (drain_leaves_column_empty 1 0 _ _ E).
Defined.

(** ** ATTACH terminates *)

Lemma norm_index_insert {A} (l : list A) (n : nat) (x : A) (i : Z) :
  norm_index (<[n := x]> l) i = norm_index l i.
Proof. unfold norm_index, len. now rewrite length_insert. Qed.

(** After a push into some column, a column holds what it held, or that
    and the pushed item at the end. *)
Lemma push_col_column (position mid : Z) (new : Item.t)
    (self self' : EarleyChart.t) (column : Agenda.t) :
  EarleyChart.push_col position new self = Ok self' ->
  getitem (EarleyChart.cols self) mid = Ok column ->
  exists column',
    getitem (EarleyChart.cols self') mid = Ok column' /\
    (Agenda.all column' = Agenda.all column \/
     Agenda.all column' = (Agenda.all column ++ [new])%list).
Proof.
  unfold EarleyChart.push_col.
  destruct (getitem (EarleyChart.cols self) position) as [c| |] eqn:Hp; cbn;
    try discriminate.
  destruct (getitem_lookup _ _ _ Hp) as (n & Hn & Hc).
  unfold setitem. rewrite Hn. cbn. intros [= <-] Hmid. cbn.
  destruct (getitem_lookup _ _ _ Hmid) as (m & Hm & Hcol).
  unfold getitem. rewrite norm_index_insert, Hm.
  destruct (decide (n = m)) as [->|Hne].
  - rewrite list_lookup_insert_eq by (now apply lookup_lt_Some in Hcol).
    eexists. split; [reflexivity|].
    replace c with column by congruence. apply push_items.
  - rewrite list_lookup_insert_ne by exact Hne. rewrite Hcol. eauto.
Qed.

Lemma push_col_no_fuel (position : Z) (item : Item.t)
    (self : EarleyChart.t) :
  EarleyChart.push_col position item self <> OutOfFuel.
Proof.
  unfold EarleyChart.push_col.
  destruct (getitem_raises (EarleyChart.cols self) position)
    as [[column ->]| ->]; [|discriminate].
  cbn. destruct (setitem_raises (EarleyChart.cols self) position
                   (Agenda.push item column)) as [[n ->]| ->]; discriminate.
Qed.

Lemma next_symbol_some (item : Item.t) (next : string) :
  Item.next_symbol item = Ok (Some next) ->
  0 <= Item.dot_position item < len (Rule.rhs (Item.rule item)).
Proof.
  unfold Item.next_symbol.
  destruct (_ && _) eqn:Hr; [|discriminate].
  apply andb_true_iff in Hr as [H0 H1]. apply Z.leb_le in H0, H1.
  destruct (Z.eqb_spec (Item.dot_position item)
              (len (Rule.rhs (Item.rule item)))); [discriminate|].
  intros _. lia.
Qed.

Lemma next_symbol_no_fuel (item : Item.t) :
  Item.next_symbol item <> OutOfFuel.
Proof.
  unfold Item.next_symbol. destruct (_ && _); [|discriminate].
  destruct (_ =? _); [discriminate|].
  destruct (getitem_raises (Rule.rhs (Item.rule item))
              (Item.dot_position item)) as [[x ->]| ->]; discriminate.
Qed.

Lemma attach_from_terminates (fuel j : nat) (item : Item.t)
    (position mid : Z) (self : EarleyChart.t) (column : Agenda.t) :
  getitem (EarleyChart.cols self) mid = Ok column ->
  (attach_budget (drop j (Agenda.all column)) <= fuel)%nat ->
  EarleyChart.attach_from fuel j item position mid self <> OutOfFuel.
Proof.
  revert j self column.
  induction fuel as [|fuel IH]; intros j self column Hcol Hfuel; cbn;
    rewrite Hcol; cbn;
    (destruct (Agenda.all column !! j) as [customer|] eqn:Hj;
     [|discriminate]);
    rewrite (drop_S _ _ _ Hj) in Hfuel; unfold attach_budget in Hfuel;
    cbn in Hfuel; [unfold steps_left in Hfuel; lia|].
  fold (attach_budget (drop (S j) (Agenda.all column))) in Hfuel.
  destruct (Item.next_symbol customer) as [next| |] eqn:Hnext; cbn;
    [|discriminate|now apply next_symbol_no_fuel in Hnext].
  destruct (EarleyChart.symbol_eqb (Rule.lhs (Item.rule item)) next)
    eqn:Hsym.
  2: { apply (IH _ _ column Hcol). lia. }
  destruct next as [next|]; [|discriminate].
  destruct (Item.backpointers customer) as [bps|]; cbn; [|discriminate].
  rewrite (advance_at_symbol _ _ _ _ _ Hnext). cbn.
  destruct (EarleyChart.push_col position _ self) as [self1| |] eqn:Hpush;
    cbn; [|discriminate|now apply push_col_no_fuel in Hpush].
  destruct (push_col_column _ mid _ _ _ _ Hpush Hcol)
    as (column' & Hcol' & Hall).
  apply (IH _ _ column' Hcol').
  apply next_symbol_some in Hnext.
  destruct Hall as [-> | ->]; [lia|].
  rewrite drop_app_le by (apply lookup_lt_Some in Hj; lia).
  unfold attach_budget in *. rewrite sum_list_with_app. cbn.
  unfold steps_left in *. cbn. lia.
Qed.

(** X14.  ATTACH terminates, also when the complete item started in the
    column it is attached in and the loop appends to the list it walks:
    with a step budget of, for each item of the customers' column, one more
    than the number of symbols after its dot, [_attach] does not run out
    of steps. *)
Theorem attach_terminates (fuel : nat) (item : Item.t) (position : Z)
    (self : EarleyChart.t) (column : Agenda.t) :
  getitem (EarleyChart.cols self) (Item.start_position item) = Ok column ->
  (attach_budget (Agenda.all column) <= fuel)%nat ->
  EarleyChart._attach fuel item position self <> OutOfFuel.
Proof.
  intros Hcol Hfuel. unfold EarleyChart._attach.
  now apply (attach_from_terminates _ _ _ _ _ _ column).
Qed.

(** The theorem at the sample chart, whose customers' column has two items
    with one symbol after the dot each. *)
Lemma attach_terminates_witness :
  EarleyChart._attach 4 item_b_done 2 chart_relaxed <> OutOfFuel.
Proof.
  apply (attach_terminates 4 item_b_done 2 chart_relaxed column_relaxed).
  - reflexivity.
  - vm_compute. apply le_n.
Defined.

(** ** The chart constructor and the loop over the sentences *)

(** X15.  What [EarleyChart(tokens, grammar)] does, for every grammar
    object, every token list and every step budget.  When the start symbol
    has no rule the run returns a chart with one empty column per position,
    no goal item and the start symbol stored as a key of the grammar; the
    sentence is not accepted and [get_best_parse] is [None].  When the start
    symbol has a rule, the seeding raises [TypeError]. *)
Theorem chart_constructor_outcome (fuel : nat) (tokens : list string)
    (g : Grammar.t) :
  match (Grammar.expansions (Grammar.start_symbol g) g).1 with
  | [] =>
      exists self,
        EarleyChart.__init__ fuel tokens g = Ok self /\
        EarleyChart.tokens self = tokens /\
        EarleyChart.cols self
        = replicate (S (length tokens)) Agenda.__init__ /\
        Grammar.is_nonterminal (Grammar.start_symbol g)
          (EarleyChart.grammar self) = true /\
        EarleyChart.accepted self = false /\
        EarleyChart.get_best_parse self = Ok None
  | _ :: _ => EarleyChart.__init__ fuel tokens g = Raise TypeError
  end.
Proof.
  rewrite run_outcome.
  destruct (Grammar.expansions (Grammar.start_symbol g) g).1; [|reflexivity].
  eexists. split; [reflexivity|]. cbn.
  replace (Z.to_nat (len tokens + 1)) with (S (length tokens))
    by (unfold len; lia).
  split; [reflexivity|]. split; [reflexivity|].
  split; [apply expansions_makes_key|]. auto.
Qed.



(** ** The symbol after the dot *)

(** X17.  [next_symbol] and [advance] on every item.  With the dot before
    the end of the rule [next_symbol] is the rhs symbol at the dot and
    [advance] returns the item with the dot, weight and back-pointers it is
    given and the same rule and start; with the dot at the end
    [next_symbol] is [None] and [advance] raises [IndexError]; with the dot
    outside the rule both fail the assertion. *)
Theorem next_symbol_cases (item : Item.t) (dot : Z) (weight : float)
    (backpointers : list Item.t) :
  let n := len (Rule.rhs (Item.rule item)) in
  let d := Item.dot_position item in
  if (0 <=? d) && (d <? n) then
    exists next,
      Rule.rhs (Item.rule item) !! Z.to_nat d = Some next /\
      Item.next_symbol item = Ok (Some next) /\
      Item.advance item dot weight backpointers
      = Ok (Item.mk (Item.rule item) dot (Item.start_position item) weight
              (Some backpointers))
  else if d =? n then
    Item.next_symbol item = Ok None /\
    Item.advance item dot weight backpointers = Raise IndexError
  else
    Item.next_symbol item = Raise AssertionError /\
    Item.advance item dot weight backpointers = Raise AssertionError.
Proof.
  cbv zeta.
  destruct (Z.leb_spec 0 (Item.dot_position item)) as [H0|H0]; cbn [andb].
  - destruct (Z.ltb_spec (Item.dot_position item)
                (len (Rule.rhs (Item.rule item)))) as [H1|H1].
    + destruct (lookup_lt_is_Some_2 (Rule.rhs (Item.rule item))
                  (Z.to_nat (Item.dot_position item))) as [next Hnext].
      { unfold len in *. lia. }
      assert (Hn : Item.next_symbol item = Ok (Some next)).
      { destruct (next_symbol_in_range item) as [[E _]|[_ [s Hs]]];
          [unfold in_range; lia|lia|].
        rewrite Hs. unfold Item.next_symbol in Hs.
        destruct (_ && _); [|discriminate].
        destruct (_ =? _); [discriminate|].
        rewrite (getitem_nonneg _ _ _ H0 Hnext) in Hs. cbn in Hs.
        now symmetry. }
      exists next. split; [exact Hnext|]. split; [exact Hn|].
      exact (advance_at_symbol _ _ _ _ _ Hn).
    + destruct (Z.eqb_spec (Item.dot_position item)
                  (len (Rule.rhs (Item.rule item)))) as [E|E].
      * split; [|now apply advance_at_end].
        destruct (next_symbol_in_range item) as [[_ Hn]|[Hlt _]];
          [unfold in_range; lia|exact Hn|lia].
      * assert (Hn : Item.next_symbol item = Raise AssertionError).
        { apply next_symbol_assertion. unfold in_range. lia. }
        split; [exact Hn|]. unfold Item.advance. now rewrite Hn.
  - assert (Hn : Item.next_symbol item = Raise AssertionError).
    { apply next_symbol_assertion. unfold in_range. lia. }
    destruct (Z.eqb_spec (Item.dot_position item)
                (len (Rule.rhs (Item.rule item)))) as [E|E].
    + unfold len in E. lia.
    + split; [exact Hn|]. unfold Item.advance. now rewrite Hn.
Qed.

(** ** The tree of an item *)

(** The loop over the back-pointers inside [_build_tree] is
    [build_children]. *)
Lemma build_all_children (tokens : list string) (l : list Item.t) :
  (fix build_all (bps : list Item.t) : result (list tree) :=
     match bps with
     | [] => Ok []
     | bp :: bps' =>
         child ← EarleyChart._build_tree tokens bp;
         rest ← build_all bps';
         Ok (child :: rest)
     end) l
  = build_children tokens l.
Proof.
  induction l as [|bp l IH]; [reflexivity|].
  simpl. destruct (EarleyChart._build_tree tokens bp); simpl;
    [now rewrite IH|reflexivity..].
Qed.

Lemma build_tree_node (tokens : list string) (rule : Rule.t)
    (dot start : Z) (weight : float) (bp : Item.t) (bps : list Item.t) :
  EarleyChart._build_tree tokens
    (Item.mk rule dot start weight (Some (bp :: bps)))
  = (children ← build_children tokens (bp :: bps);
     Ok (Node (Rule.lhs rule) children)).
Proof.
  simpl. destruct (EarleyChart._build_tree tokens bp); simpl;
    [now rewrite build_all_children|reflexivity..].
Qed.

Lemma getitems_app {A} (l : list A) (is1 is2 : list Z) :
  getitems l (is1 ++ is2)
  = (xs ← getitems l is1; ys ← getitems l is2; Ok (xs ++ ys)%list).
Proof.
  induction is1 as [|i is1 IH]; cbn.
  - now destruct (getitems l is2).
  - destruct (getitem l i); cbn; try reflexivity.
    rewrite IH. destruct (getitems l is1); cbn; try reflexivity.
    now destruct (getitems l is2).
Qed.

Lemma build_children_yield (tokens : list string) (bps : list Item.t) :
  Forall (fun item =>
            tree_yield <$> EarleyChart._build_tree tokens item
            = getitems tokens (leaf_positions item)) bps ->
  (fun children => concat (map tree_yield children))
    <$> build_children tokens bps
  = getitems tokens (concat (map leaf_positions bps)).
Proof.
  induction 1 as [|bp bps Hbp _ IH]; cbn; [reflexivity|].
  rewrite getitems_app, <- Hbp, <- IH.
  destruct (EarleyChart._build_tree tokens bp); cbn; try reflexivity.
  now destruct (build_children tokens bps).
Qed.

(** X18.  The tree that [_build_tree] makes of an item has the lhs of the
    item's rule at its root, and its terminal leaves are the tokens at the
    start positions of the items with an empty list of back-pointers
    reached from the item, left to right; items whose back-pointers are
    [None] give no leaf.  It raises exactly when reading one of those
    positions in the token list does. *)
Theorem build_tree_yield (tokens : list string) (item : Item.t) :
  tree_yield <$> EarleyChart._build_tree tokens item
  = getitems tokens (leaf_positions item) /\
  forall t,
    EarleyChart._build_tree tokens item = Ok t ->
    root_label t = Rule.lhs (Item.rule item).
Proof.
  split.
  - induction item as [rule dot start weight [[|bp bps]|] IH]
      using Item_nested_ind.
    + cbn. now destruct (getitem tokens start).
    + rewrite build_tree_node.
      change (leaf_positions (Item.mk rule dot start weight (Some (bp :: bps))))
        with (concat (map leaf_positions (bp :: bps))).
      rewrite <- (build_children_yield tokens (bp :: bps) IH).
      now destruct (build_children tokens (bp :: bps)).
    + reflexivity.
  - destruct item as [rule dot start weight [[|bp bps]|]]; intros t.
    + cbn. destruct (getitem tokens start); cbn; try discriminate.
      now intros [= <-].
    + rewrite build_tree_node.
      destruct (build_children tokens (bp :: bps)); cbn; try discriminate.
      now intros [= <-].
    + now intros [= <-].
Qed.

(** The theorem at [T -> a b .] with its chain of back-pointers. *)
Lemma build_tree_yield_witness :
  tree_yield <$> EarleyChart._build_tree ["a"; "b"] item_t_2
  = getitems ["a"; "b"] (leaf_positions item_t_2) /\
  forall t,
    EarleyChart._build_tree ["a"; "b"] item_t_2 = Ok t ->
    root_label t = Rule.lhs (Item.rule item_t_2).
Proof. exact (build_tree_yield ["a"; "b"] item_t_2). Defined.

(** ** The printed tree *)

Lemma count_char_app (c : ascii) (s1 s2 : string) :
  count_char c (s1 ++ s2) = (count_char c s1 + count_char c s2)%nat.
Proof.
  induction s1 as [|c1 s1 IH]; [reflexivity|].
  change (String c1 s1 ++ s2) with (String c1 (s1 ++ s2)).
  cbn [count_char]. rewrite IH. lia.
Qed.

Lemma count_char_join (c : ascii) (l : list string) :
  Ascii.eqb " " c = false ->
  count_char c (join_space l) = list_sum (map (count_char c) l).
Proof.
  intros Hc. induction l as [|s [|s' l] IH]; [reflexivity|cbn; lia|].
  change (join_space (s :: s' :: l)) with (s ++ " " ++ join_space (s' :: l)).
  rewrite !count_char_app, IH. cbn [count_char].
  rewrite Hc. simpl. lia.
Qed.

Lemma count_char_format (c : ascii) (t : tree) :
  Ascii.eqb " " c = false ->
  count_char c (format_tree t)
  = match t with
    | Leaf label token =>
        (count_char c "(" + count_char c label + count_char c token
         + count_char c ")")%nat
    | Node label children =>
        (count_char c "(" + count_char c label
         + list_sum (map (fun t => count_char c (format_tree t)) children)
         + count_char c ")")%nat
    end.
Proof.
  intros Hc. destruct t as [label children|label token].
  - change (format_tree (Node label children))
      with ("(" ++ label ++ " " ++ join_space (map format_tree children) ++ ")").
    rewrite !count_char_app, (count_char_join c _ Hc), map_map.
    cbn [count_char]. rewrite Hc. simpl. lia.
  - change (format_tree (Leaf label token))
      with ("(" ++ label ++ " " ++ token ++ ")").
    rewrite !count_char_app. cbn [count_char]. rewrite Hc. simpl. lia.
Qed.

(** X19.  The line that [format_tree] prints is balanced: when no label
    and no token holds a parenthesis, it has exactly one opening and one
    closing parenthesis for every node of the tree. *)
Theorem format_tree_balanced (t : tree) :
  no_parens t = true ->
  count_char "(" (format_tree t) = nodes t /\
  count_char ")" (format_tree t) = nodes t.
Proof.
  induction t as [label children IH|label token] using tree_nested_ind;
    intros Hclean; rewrite !count_char_format by reflexivity.
  - cbn [no_parens] in Hclean.
    apply andb_true_iff in Hclean as [Hlabel Hchildren].
    apply Nat.eqb_eq in Hlabel.
    assert (Hsum :
      list_sum (map (fun t => count_char "(" (format_tree t)) children)
      = list_sum (map nodes children) /\
      list_sum (map (fun t => count_char ")" (format_tree t)) children)
      = list_sum (map nodes children)).
    { induction IH as [|child children Hchild _ IHc]; [split; reflexivity|].
      cbn [forallb] in Hchildren.
      apply andb_true_iff in Hchildren as [H1 H2].
      destruct (Hchild H1) as [A B], (IHc H2) as [C D].
      cbn [map]. change (list_sum (?x :: ?l)) with (x + list_sum l)%nat.
      rewrite A, B, C, D. split; reflexivity. }
    destruct Hsum as [-> ->]. cbn [nodes count_char Ascii.eqb].
    cbn. lia.
  - cbn [no_parens] in Hclean. apply Nat.eqb_eq in Hclean.
    cbn [nodes]. cbn. lia.
Qed.

(** The theorem at the tree of [T -> a b .]. *)
Lemma format_tree_balanced_witness :
  count_char "(" (format_tree (Node "T" [Node "T" [Node "T" []]])) = 3%nat /\
  count_char ")" (format_tree (Node "T" [Node "T" [Node "T" []]])) = 3%nat.
Proof.
  apply (format_tree_balanced (Node "T" [Node "T" [Node "T" []]])).
  reflexivity.
Defined.
